(** * Font plugins and the timestamp tutorial of CKEditor 5

    The sources verified here are glue code: every interesting effect is a
    call into the editor framework (configuration, schema, conversion,
    commands, UI component factory, model writer).  The code is therefore
    embedded as _scripts_: trees of calls whose continuation receives the
    reply of the framework.  A host interprets the calls; a property that
    holds for every host is a property of the plugin alone. *)

From Stdlib Require Import List String Ascii Bool Arith Lia.
From stdpp Require Import base strings gmap.
Import ListNotations.
Open Scope string_scope.
Open Scope list_scope.

(** ** Scripts: calls and the replies they wait for *)

Section Script.
Context {Op : Type} (Reply : Op -> Type).

Inductive Script (A : Type) : Type :=
| Done (a : A)
| Ask (op : Op) (next : Reply op -> Script A).

Arguments Done {A} a.
Arguments Ask {A} op next.

Fixpoint andThen {A B} (p : Script A) (f : A -> Script B) : Script B :=
  match p with
  | Done a => f a
  | Ask op next => Ask op (fun r => andThen (next r) f)
  end.

Definition call (op : Op) : Script (Reply op) := Ask op Done.

(** One entry of the journal of a run: the call and what came back. *)
Inductive Step : Type :=
| step (op : Op) (reply : Reply op).

Definition step_op (s : Step) : Op := let 'step op _ := s in op.

(** A host owns some state and answers every call. *)
Record Host : Type := {
  world : Type;
  respond : forall op : Op, world -> Reply op * world
}.

Record Run (W A : Type) : Type := {
  journal : list Step;
  result : A;
  after : W
}.
Arguments journal {W A} r.
Arguments result {W A} r.
Arguments after {W A} r.

Fixpoint play {A} (h : Host) (p : Script A) (w : world h) : Run (world h) A :=
  match p with
  | Done a => {| journal := []; result := a; after := w |}
  | Ask op next =>
      let '(r, w1) := respond h op w in
      let rest := play h (next r) w1 in
      {| journal := step op r :: journal rest;
         result := result rest;
         after := after rest |}
  end.

Definition calls {A} (h : Host) (p : Script A) (w : world h) : list Op :=
  map step_op (journal (play h p w)).
End Script.

Arguments Done {Op Reply A} a.
Arguments Ask {Op Reply A} op next.
Arguments call {Op Reply} op.
Arguments step {Op Reply} op reply.
Arguments step_op {Op Reply} s.
Arguments journal {Op Reply W A} r.
Arguments result {Op Reply W A} r.
Arguments after {Op Reply W A} r.
Arguments world {Op Reply} h.
Arguments respond {Op Reply} h op w.
Arguments andThen {Op Reply A B} p f.
Arguments play {Op Reply A} h p w.
Arguments calls {Op Reply A} h p w.

Declare Scope script_scope.
Delimit Scope script_scope with script.
Notation "'let*' x := p 'in' q" := (andThen p (fun x => q))
  (at level 10, x name, p at level 100, q at level 200) : script_scope.
Notation "p >> q" := (andThen p (fun _ => q))
  (at level 100, q at level 200, right associativity) : script_scope.
Open Scope script_scope.

(** ** JavaScript truthiness of the values the plugins test *)

Class Truthy (A : Type) := truthy : A -> bool.

(** A string is falsy exactly when it is empty. *)
#[global] Instance string_truthy : Truthy string :=
  fun s => negb (String.eqb s "").

#[global] Instance bool_truthy : Truthy bool := fun b => b.

(** [None] stands for [undefined], which is falsy. *)
#[global] Instance optional_truthy {A} `{Truthy A} : Truthy (option A) :=
  fun o => match o with Some a => truthy a | None => false end.

(** ** The kinds of calls a plugin can make

    The first four are the kinds the specification lists; the others name
    what the sources do besides. *)

Inductive CallKind : Type :=
| default_configuration_registration
| schema_allow_list_extension
| attribute_to_element_rule_registration
| command_registration
| configuration_read
| schema_attribute_properties_registration
| element_to_attribute_rule_registration
| ui_component_registration
| package_utility.

Definition listed_kind (k : CallKind) : bool :=
  match k with
  | default_configuration_registration
  | schema_allow_list_extension
  | attribute_to_element_rule_registration
  | command_registration => true
  | _ => false
  end.

(** Utilities of the font package itself are not calls into the framework. *)
Definition framework_kind (k : CallKind) : bool :=
  match k with
  | package_utility => false
  | _ => true
  end.

(** What [FontFamilyEditing.init] does before it sets the conversion up. *)
Definition kinds_before_conversion : list CallKind :=
  [ schema_allow_list_extension; schema_attribute_properties_registration;
    configuration_read; package_utility; package_utility; configuration_read ].

(** "Every call into the framework is of a listed kind." *)
Definition only_listed_kinds (kinds : list CallKind) : bool :=
  forallb (fun k => implb (framework_kind k) (listed_kind k)) kinds.

(** ** Views and view patterns of the conversion calls *)

(** Modelled from the spec: the view elements, the attribute elements made
    by the downcast writer and the matcher patterns belong to the engine
    package, which the plugin only consumes.  They are kept as plain data:
    an element has a name, parsed inline styles and attributes; the one
    regular expression the sources use is [/.*/], which accepts any string. *)
Record ViewElement : Type := {
  element_name : string;
  element_styles : gmap string string;
  element_attributes : gmap string string
}.

Definition getStyle (viewElement : ViewElement) (property : string) : option string :=
  element_styles viewElement !! property.

Definition getAttribute (viewElement : ViewElement) (key : string) : option string :=
  element_attributes viewElement !! key.

(** [writer.createAttributeElement( name, attributes, { priority } )]: what
    the [view] callback of a downcast converter hands to the downcast
    writer.  The element the writer makes of it is the engine's, which
    parses the [style] text; here the three arguments are kept as they were
    handed over, so two values of this type may stand for one element of
    the engine. *)
Record AttributeElement : Type := createAttributeElement {
  attribute_element_name : string;
  attribute_element_attributes : list (string * string);
  attribute_element_priority : nat
}.

(** The value an attribute object such as [{ style: ... }] gives a key. *)
Fixpoint attribute_value (key : string) (attributes : list (string * string)) : option string :=
  match attributes with
  | [] => None
  | (k, v) :: more => if String.eqb k key then Some v else attribute_value key more
  end.

(** What is left of [s] once [prefix] has been read off its front. *)
Fixpoint without_prefix (prefix s : string) : option string :=
  match prefix, s with
  | EmptyString, _ => Some s
  | String a prefix', String b s' =>
      if Ascii.eqb a b then without_prefix prefix' s' else None
  | String _ _, EmptyString => None
  end.

(** The value a one-declaration inline style ["property:value"] gives the
    property. *)
Definition declared_value (property declaration : string) : option string :=
  without_prefix (property +:+ ":") declaration.

Inductive RegExp : Type :=
| any_string.

Definition regexp_test (re : RegExp) (s : string) : bool :=
  match re with any_string => true end.

Record MatcherPattern : Type := {
  pattern_name : string;
  pattern_styles : list (string * RegExp);
  pattern_attributes : list (string * RegExp)
}.

Definition key_matches (found : option string) (re : RegExp) : bool :=
  match found with
  | Some value => regexp_test re value
  | None => false
  end.

Definition pattern_matches (pattern : MatcherPattern) (viewElement : ViewElement) : bool :=
  String.eqb (pattern_name pattern) (element_name viewElement)
  && forallb (fun '(k, re) => key_matches (getStyle viewElement k) re) (pattern_styles pattern)
  && forallb (fun '(k, re) => key_matches (getAttribute viewElement k) re) (pattern_attributes pattern).

(** A view element definition as an option of the configuration carries it. *)
Record ViewElementDefinition : Type := {
  definition_name : string;
  definition_styles : list (string * string);
  definition_priority : option nat
}.

(** ** The configuration shape (fontfamily.ts) *)

Record FontFamilyOption : Type := {
  title : string;
  model : option string;
  view : option ViewElementDefinition;
  upcastAlso : option (list MatcherPattern)
}.

(** An entry of [fontFamily.options] is [string | FontFamilyOption]. *)
Inductive ConfiguredOption : Type :=
| option_string (s : string)
| option_object (o : FontFamilyOption).

Record FontFamilyConfig : Type := {
  options : option (list ConfiguredOption);
  supportAllValues : option bool
}.

Inductive ConfigPath : Type :=
| fontFamily_options
| fontFamily_supportAllValues.

Definition path_text (path : ConfigPath) : string :=
  match path with
  | fontFamily_options => "fontFamily.options"
  | fontFamily_supportAllValues => "fontFamily.supportAllValues"
  end.

Record AttributeProperties : Type := {
  isFormatting : bool;
  copyOnEnter : bool
}.

(** [new FontFamilyCommand( editor )]; the class is not among the sources. *)
Inductive Command : Type :=
| FontFamilyCommand.

(** ** fontfamily/utils.ts: normalising the configured options *)

Module FontFamilyUtils.
(** Modelled from the spec: the utilities of fontfamily/utils.ts are not
    among the sources.  What they do is taken from the documentation of
    the configuration in fontfamily.ts and from the comment and the filter
    in [init]; the definitions up to [normalizeOptions] are that model,
    strings being handled with the few operations below.  First, ASCII
    white space, which [String.prototype.trim] removes. *)
Definition is_space (a : ascii) : bool :=
  let n := nat_of_ascii a in
  (n =? 32)%nat || ((9 <=? n)%nat && (n <=? 13)%nat).

(** The double and the single quote, which are taken out of a font
    definition before it is split. *)
Definition is_quote (a : ascii) : bool :=
  let n := nat_of_ascii a in
  (n =? 34)%nat || (n =? 39)%nat.

Fixpoint without_quotes (s : string) : string :=
  match s with
  | EmptyString => EmptyString
  | String a rest => if is_quote a then without_quotes rest else String a (without_quotes rest)
  end.

(** [s.split( ',' )]: never empty, one more part than there are commas. *)
Fixpoint split_commas (s : string) : list string :=
  match s with
  | EmptyString => [EmptyString]
  | String a rest =>
      if Ascii.eqb a ","
      then EmptyString :: split_commas rest
      else match split_commas rest with
           | part :: parts => String a part :: parts
           | [] => [String a EmptyString]
           end
  end.

Fixpoint trim_start (s : string) : string :=
  match s with
  | String a rest => if is_space a then trim_start rest else s
  | EmptyString => EmptyString
  end.

Fixpoint trim_end (s : string) : string :=
  match s with
  | EmptyString => EmptyString
  | String a rest =>
      match trim_end rest with
      | EmptyString => if is_space a then EmptyString else String a EmptyString
      | kept => String a kept
      end
  end.

Definition trim (s : string) : string := trim_end (trim_start s).

(** [s.indexOf( ' ' )], with [None] for -1. *)
Fixpoint index_of_blank (s : string) : option nat :=
  match s with
  | EmptyString => None
  | String a rest =>
      if Ascii.eqb a " " then Some 0 else option_map S (index_of_blank rest)
  end.

Fixpoint join (separator : string) (parts : list string) : string :=
  match parts with
  | [] => EmptyString
  | [part] => part
  | part :: more => part +:+ separator +:+ join separator more
  end.

(** Compound font names are quoted for CSS. *)
Definition normalizeFontNameForCSS (fontName : string) : string :=
  let fontName := trim fontName in
  match index_of_blank fontName with
  | Some (S _) => "'" +:+ fontName +:+ "'"
  | _ => fontName
  end.

(** Modelled from the spec: a string lists font names separated by commas,
    the first of which is the title and the model value, and the view is a
    [span] of priority 7 whose [font-family] style lists the names, those
    with a blank in them quoted. *)
Definition generateFontPreset (fontDefinition : string) : FontFamilyOption :=
  let fontNames := split_commas (without_quotes fontDefinition) in
  let firstFontName := hd EmptyString fontNames in
  let cssFontNames := join ", " (map normalizeFontNameForCSS fontNames) in
  {| title := firstFontName;
     model := Some firstFontName;
     view := Some {| definition_name := "span";
                     definition_styles := [("font-family", cssFontNames)];
                     definition_priority := Some 7 |};
     upcastAlso := None |}.

(** Modelled from the spec: an option given as an object is a full
    definition and is kept; ['default'] stands for the text without the
    attribute and gets no [model], which is why [init] filters on it. *)
Definition getOptionDefinition (configured : ConfiguredOption) : FontFamilyOption :=
  match configured with
  | option_object definition => definition
  | option_string s =>
      if String.eqb s "default"
      then {| title := "Default"; model := None; view := None; upcastAlso := None |}
      else generateFontPreset s
  end.

(** Modelled from the spec: every configured option is normalised on its
    own, in the order given. *)
Definition normalizeOptions (configuredOptions : list ConfiguredOption)
    : list FontFamilyOption :=
  map getOptionDefinition configuredOptions.
End FontFamilyUtils.

(** ** fontfamilyediting.ts *)

Module FontFamilyEditing.
Section Plugin.
(** What [buildDefinition] returns; the builder lives in ../utils. *)
Context {AttributeDefinition : Type}.

Inductive PluginCall : Type :=
| config_define (name : string) (defaults : FontFamilyConfig)
| config_get (path : ConfigPath)
| schema_extend (item : string) (allowAttributes : string)
| schema_setAttributeProperties (attribute : string) (properties : AttributeProperties)
| normalizeOptions (configuredOptions : list ConfiguredOption)
| buildDefinition (modelAttributeKey : string) (options : list FontFamilyOption)
| conversion_attributeToElement (definition : AttributeDefinition)
| conversion_for_downcast_attributeToElement
    (model : string) (view : string -> AttributeElement)
| conversion_for_upcast_elementToAttribute
    (view : MatcherPattern) (key : string) (value : ViewElement -> option string)
| commands_add (name : string) (command : Command).

Definition Reply (c : PluginCall) : Type :=
  match c with
  | config_get fontFamily_options => list ConfiguredOption
  | config_get fontFamily_supportAllValues => option bool
  | normalizeOptions _ => list FontFamilyOption
  | buildDefinition _ _ => AttributeDefinition
  | _ => unit
  end.

Definition kind_of (c : PluginCall) : CallKind :=
  match c with
  | config_define _ _ => default_configuration_registration
  | config_get _ => configuration_read
  | schema_extend _ _ => schema_allow_list_extension
  | schema_setAttributeProperties _ _ => schema_attribute_properties_registration
  | normalizeOptions _ => package_utility
  | buildDefinition _ _ => package_utility
  | conversion_attributeToElement _ => attribute_to_element_rule_registration
  | conversion_for_downcast_attributeToElement _ _ => attribute_to_element_rule_registration
  | conversion_for_upcast_elementToAttribute _ _ _ => element_to_attribute_rule_registration
  | commands_add _ _ => command_registration
  end.

(** The constant comes from ../utils; it is the key under which the
    configuration, the attribute and the command go, [fontFamily]. *)
Definition FONT_FAMILY : string := "fontFamily".

Definition pluginName : string := "FontFamilyEditing".

Definition default_options : list ConfiguredOption :=
  [ option_string "default";
    option_string "Arial, Helvetica, sans-serif";
    option_string "Courier New, Courier, monospace";
    option_string "Georgia, serif";
    option_string "Lucida Sans Unicode, Lucida Grande, sans-serif";
    option_string "Tahoma, Geneva, sans-serif";
    option_string "Times New Roman, Times, serif";
    option_string "Trebuchet MS, Helvetica, sans-serif";
    option_string "Verdana, Geneva, sans-serif" ].

Definition default_configuration : FontFamilyConfig :=
  {| options := Some default_options; supportAllValues := Some false |}.

(** [constructor( editor )]: define the default configuration. *)
Definition constructor : Script Reply unit :=
  call (config_define FONT_FAMILY default_configuration).

(** The [view] callback of the any-value downcast converter. *)
Definition anyValue_view (attributeValue : string) : AttributeElement :=
  createAttributeElement "span" [("style", "font-family:" +:+ attributeValue)] 7.

(** The [model.value] callback of the any-value upcast converter. *)
Definition anyValue_value (viewElement : ViewElement) : option string :=
  getStyle viewElement "font-family".

Definition anyValue_pattern : MatcherPattern :=
  {| pattern_name := "span";
     pattern_styles := [("font-family", any_string)];
     pattern_attributes := [] |}.

Definition _prepareAnyValueConverters : Script Reply unit :=
  call (conversion_for_downcast_attributeToElement FONT_FAMILY anyValue_view) >>
  call (conversion_for_upcast_elementToAttribute anyValue_pattern FONT_FAMILY anyValue_value).

Definition compatibility_pattern : MatcherPattern :=
  {| pattern_name := "font";
     pattern_styles := [];
     pattern_attributes := [("face", any_string)] |}.

Definition compatibility_value (viewElement : ViewElement) : option string :=
  getAttribute viewElement "face".

Definition _prepareCompatibilityConverter : Script Reply unit :=
  call (conversion_for_upcast_elementToAttribute
          compatibility_pattern FONT_FAMILY compatibility_value).

(** [.filter( item => item.model )] *)
Definition without_default (normalized : list FontFamilyOption) : list FontFamilyOption :=
  List.filter (fun item => truthy (model item)) normalized.

(** What [init] registers when [supportAllValues] is set. *)
Definition any_value_registrations : list PluginCall :=
  [ conversion_for_downcast_attributeToElement FONT_FAMILY anyValue_view;
    conversion_for_upcast_elementToAttribute anyValue_pattern FONT_FAMILY anyValue_value;
    conversion_for_upcast_elementToAttribute compatibility_pattern FONT_FAMILY
      compatibility_value ].

Definition init : Script Reply unit :=
  call (schema_extend "$text" FONT_FAMILY) >>
  call (schema_setAttributeProperties FONT_FAMILY
          {| isFormatting := true; copyOnEnter := true |}) >>
  let* configured := call (config_get fontFamily_options) in
  let* normalized := call (normalizeOptions configured) in
  let options := without_default normalized in
  let* definition := call (buildDefinition FONT_FAMILY options) in
  let* supportAllValues := call (config_get fontFamily_supportAllValues) in
  (if truthy (supportAllValues : option bool)
   then _prepareAnyValueConverters >> _prepareCompatibilityConverter
   else call (conversion_attributeToElement definition)) >>
  call (commands_add FONT_FAMILY FontFamilyCommand).

(** The editor builds the plugin, then initialises it. *)
Definition load : Script Reply unit := constructor >> init.

(** *** Reading a journal *)

(** The lists [editor.config.get( 'fontFamily.options' )] returned. *)
Definition options_read (j : list (Step Reply)) : list (list ConfiguredOption) :=
  flat_map
    (fun s =>
       let 'step op r := s in
       match op as o return Reply o -> list (list ConfiguredOption) with
       | config_get path =>
           match path as q return Reply (config_get q) -> list (list ConfiguredOption) with
           | fontFamily_options => fun configured => [configured]
           | fontFamily_supportAllValues => fun _ => []
           end
       | _ => fun _ => []
       end r)
    j.

(** The values [editor.config.get( 'fontFamily.supportAllValues' )] returned. *)
Definition supportAllValues_read (j : list (Step Reply)) : list (option bool) :=
  flat_map
    (fun s =>
       let 'step op r := s in
       match op as o return Reply o -> list (option bool) with
       | config_get path =>
           match path as q return Reply (config_get q) -> list (option bool) with
           | fontFamily_options => fun _ => []
           | fontFamily_supportAllValues => fun flag => [flag]
           end
       | _ => fun _ => []
       end r)
    j.

(** Arguments and results of [normalizeOptions]. *)
Definition normalized (j : list (Step Reply))
    : list (list ConfiguredOption * list FontFamilyOption) :=
  flat_map
    (fun s =>
       let 'step op r := s in
       match op as o return Reply o -> list (list ConfiguredOption * list FontFamilyOption) with
       | normalizeOptions configured => fun result => [(configured, result)]
       | _ => fun _ => []
       end r)
    j.

(** Arguments and results of [buildDefinition]. *)
Definition built (j : list (Step Reply))
    : list (string * list FontFamilyOption * AttributeDefinition) :=
  flat_map
    (fun s =>
       let 'step op r := s in
       match op as o return Reply o -> list (string * list FontFamilyOption * AttributeDefinition) with
       | buildDefinition key opts => fun definition => [(key, opts, definition)]
       | _ => fun _ => []
       end r)
    j.

(** The option lists [buildDefinition] was handed. *)
Definition handed_to_builder (j : list (Step Reply)) : list (list FontFamilyOption) :=
  map (fun b => snd (fst b)) (built j).

Definition is_conversion (c : PluginCall) : bool :=
  match kind_of c with
  | attribute_to_element_rule_registration
  | element_to_attribute_rule_registration => true
  | _ => false
  end.

Definition is_configuration_read (c : PluginCall) : bool :=
  match c with config_get _ => true | _ => false end.

(** "Passed unmodified": what reaches the builder is, entry for entry, what
    the configuration holds. *)
Definition passed_unmodified (configured : list ConfiguredOption)
    (handed : list FontFamilyOption) : Prop :=
  map option_object handed = configured.
End Plugin.
Arguments PluginCall AttributeDefinition : clear implicits.
Arguments Reply AttributeDefinition c : clear implicits.
End FontFamilyEditing.

(** ** fontsize.ts, fontfamily.ts, fontcolor.ts: the glue plugins

    They declare what they require and nothing else; [FontSize] also exposes
    the normalisation utility of its package under another name. *)

Module FontSize.
Section Plugin.
Context {Configured FontSizeOption : Type}.

Inductive PluginCall : Type :=
| normalizeOptions (options : list Configured).

Definition Reply (c : PluginCall) : Type := list FontSizeOption.

Definition kind_of (c : PluginCall) : CallKind := package_utility.

Definition requires : list string := ["FontSizeEditing"; "FontSizeUI"].
Definition pluginName : string := "FontSize".

Definition normalizeSizeOptions (options : list Configured)
  : Script Reply (list FontSizeOption) :=
  call (normalizeOptions options).
End Plugin.
End FontSize.

Module FontFamily.
Definition requires : list string := ["FontFamilyEditing"; "FontFamilyUI"].
Definition pluginName : string := "FontFamily".
End FontFamily.

Module FontColor.
Definition requires : list string := ["FontColorEditing"; "FontColorUI"].
Definition pluginName : string := "FontColor".
End FontColor.

(** ** creating-simple-plugin-timestamp.md: the Timestamp plugin *)

(** Types the engine and the platform own: positions and ranges of the
    model, the iterator behind [selection.getRanges()], dates and their
    rendering, locales. *)
Record Engine : Type := {
  Position : Type;
  Range : Type;
  RangeIterator : Type;
  Date : Type;
  toString : Date -> string;
  Locale : Type
}.

(** How a loop over an iterator ended. *)
Inductive Completion : Type :=
| completed
| out_of_fuel.

Module Timestamp.
Section Plugin.
Context (E : Engine).

(** Calls made while the model is being changed. *)
Inductive ModelCall : Type :=
| selection_getFirstPosition
| selection_getRanges
| iterator_next (ranges : RangeIterator E)
| writer_insertText (text : string) (position : Position E)
| writer_remove (range : Range E).

Definition ModelReply (c : ModelCall) : Type :=
  match c with
  | selection_getFirstPosition => Position E
  | selection_getRanges => RangeIterator E
  | iterator_next _ => option (Range E)
  | writer_insertText _ _ => unit
  | writer_remove _ => unit
  end.

(** [for ( const item of iterable ) body]: ask the iterator for the next
    item until it has none.  The iterator belongs to the host, which may
    yield without end, hence the fuel. *)
Fixpoint for_of (fuel : nat) (ranges : RangeIterator E)
    (body : Range E -> Script ModelReply unit) : Script ModelReply Completion :=
  match fuel with
  | O => Done out_of_fuel
  | S fuel' =>
      let* item := call (iterator_next ranges) in
      match (item : option (Range E)) with
      | None => Done completed
      | Some range => body range >> for_of fuel' ranges body
      end
  end.

(** [writer => { ... }], the callback handed to [editor.model.change]. *)
Definition change_callback (now : Date E) (fuel : nat) : Script ModelReply Completion :=
  let* position := call selection_getFirstPosition in
  call (writer_insertText (toString E now) position) >>
  let* ranges := call selection_getRanges in
  for_of fuel ranges (fun range => call (writer_remove range)).

(** Calls made by the listener itself. *)
Inductive ListenerCall : Type :=
| new_Date
| model_change (callback : Script ModelReply Completion).

Definition ListenerReply (c : ListenerCall) : Type :=
  match c with
  | new_Date => Date E
  | model_change _ => Completion
  end.

(** [() => { ... }], the listener of the button's [execute] event. *)
Definition execute_listener (fuel : nat) : Script ListenerReply Completion :=
  let* now := call (Reply := ListenerReply) new_Date in
  call (Reply := ListenerReply) (model_change (change_callback now fuel)).

(** Modelled from the spec: the button of the UI library is not among the
    sources; it is a record of the properties the plugin sets and of the
    listeners it attaches. *)
Record ButtonView : Type := {
  button_locale : Locale E;
  label : string;
  withText : bool;
  on_execute : list (nat -> Script ListenerReply Completion)
}.

Definition new_ButtonView (locale : Locale E) : ButtonView :=
  {| button_locale := locale; label := ""; withText := false; on_execute := [] |}.

Definition button_set (text : string) (shown : bool) (button : ButtonView) : ButtonView :=
  {| button_locale := button_locale button; label := text; withText := shown;
     on_execute := on_execute button |}.

Definition button_on_execute (listener : nat -> Script ListenerReply Completion)
    (button : ButtonView) : ButtonView :=
  {| button_locale := button_locale button; label := label button;
     withText := withText button;
     on_execute := on_execute button ++ [listener] |}.

(** [locale => { ... return button; }] *)
Definition factory (locale : Locale E) : ButtonView :=
  let button := new_ButtonView locale in
  let button := button_set "Timestamp" true button in
  let button := button_on_execute execute_listener button in
  button.

Inductive PluginCall : Type :=
| ui_componentFactory_add (name : string) (callback : Locale E -> ButtonView).

Definition Reply (c : PluginCall) : Type := unit.

Definition kind_of (c : PluginCall) : CallKind :=
  match c with
  | ui_componentFactory_add _ _ => ui_component_registration
  end.

Definition init : Script Reply unit :=
  call (ui_componentFactory_add "timestamp" factory).

(** The factory of the listing "Registering a toolbar button": the button is
    labelled and shown with its text; no listener is attached yet. *)
Definition button_only_factory (locale : Locale E) : ButtonView :=
  let button := new_ButtonView locale in
  let button := button_set "Timestamp" true button in
  button.

Definition init_with_button : Script Reply unit :=
  call (ui_componentFactory_add "timestamp" button_only_factory).

(** *** Running a listener against an engine

    [model.change( callback )] runs the callback at once; the journal keeps
    what happened inside the block together with the block. *)
Inductive ListenerStep : Type :=
| at_new_Date (now : Date E)
| at_model_change (inside : list (Step ModelReply)) (outcome : Completion).

Record Fired (W : Type) : Type := {
  steps : list ListenerStep;
  outcomes : list Completion;
  world_after : W
}.
Arguments steps {W} f.
Arguments outcomes {W} f.
Arguments world_after {W} f.

Fixpoint play_listener {A} (h : Host ModelReply) (clock : world h -> Date E)
    (p : Script ListenerReply A) (w : world h) : list ListenerStep * A * world h :=
  match p with
  | Done a => ([], a, w)
  | Ask op next =>
      match op as o return (ListenerReply o -> Script ListenerReply A) -> _ with
      | new_Date => fun next =>
          let now := clock w in
          let '(l, a, w1) := play_listener h clock (next now) w in
          (at_new_Date now :: l, a, w1)
      | model_change callback => fun next =>
          let inner := play h callback w in
          let '(l, a, w1) := play_listener h clock (next (result inner)) (after inner) in
          (at_model_change (journal inner) (result inner) :: l, a, w1)
      end next
  end.

(** Clicking the button fires [execute]: every listener runs, in the order
    of attachment. *)
Fixpoint fire (h : Host ModelReply) (clock : world h -> Date E) (fuel : nat)
    (listeners : list (nat -> Script ListenerReply Completion)) (w : world h)
    : Fired (world h) :=
  match listeners with
  | [] => {| steps := []; outcomes := []; world_after := w |}
  | listener :: more =>
      let '(l, c, w1) := play_listener h clock (listener fuel) w in
      let rest := fire h clock fuel more w1 in
      {| steps := l ++ steps rest; outcomes := c :: outcomes rest;
         world_after := world_after rest |}
  end.

(** *** Reading a journal *)

Definition is_write (c : ModelCall) : bool :=
  match c with
  | writer_insertText _ _ | writer_remove _ => true
  | _ => false
  end.

(** The calls that change the document, in order. *)
Definition writes (j : list (Step ModelReply)) : list ModelCall :=
  List.filter is_write (map step_op j).

(** The ranges the selection's iterator handed out. *)
Definition yielded (j : list (Step ModelReply)) : list (Range E) :=
  flat_map
    (fun s =>
       let 'step op r := s in
       match op as o return ModelReply o -> list (Range E) with
       | iterator_next _ => fun item => match item with Some range => [range] | None => [] end
       | _ => fun _ => []
       end r)
    j.

(** The loop of the change callback, told as one big step: the iterator
    hands out [ranges] one by one, each is removed before the next is asked
    for, and then the iterator is exhausted. *)
Inductive drains (h : Host ModelReply) (it : RangeIterator E)
    : world h -> list (Range E) -> world h -> Prop :=
| drains_done w w1 :
    respond h (iterator_next it) w = (None, w1) ->
    drains h it w [] w1
| drains_more w range w1 w2 ranges w3 :
    respond h (iterator_next it) w = (Some range, w1) ->
    snd (respond h (writer_remove range) w1) = w2 ->
    drains h it w2 ranges w3 ->
    drains h it w (range :: ranges) w3.

(** Modelled from the spec: the component factory of the editor UI is the
    framework's; it keeps the callbacks under the names they were added
    with.  The toolbar looks the name up, builds the button for its locale
    and, when the button is clicked, fires its [execute] listeners. *)
Definition component_factory : Host Reply :=
  {| world := gmap string (Locale E -> ButtonView);
     respond := fun c components =>
       match c with
       | ui_componentFactory_add name callback => (tt, <[name := callback]> components)
       end |}.

Definition click (components : gmap string (Locale E -> ButtonView)) (name : string)
    (locale : Locale E) (h : Host ModelReply) (clock : world h -> Date E) (fuel : nat)
    (w : world h) : option (Fired (world h)) :=
  match components !! name with
  | Some callback => Some (fire h clock fuel (on_execute (callback locale)) w)
  | None => None
  end.

(** The editor with the plugin loaded into an empty component factory. *)
Definition loaded : gmap string (Locale E -> ButtonView) :=
  after (play component_factory init ∅).
End Plugin.
Arguments selection_getFirstPosition {E}.
Arguments selection_getRanges {E}.
Arguments iterator_next {E} ranges.
Arguments writer_insertText {E} text position.
Arguments writer_remove {E} range.
Arguments new_Date {E}.
Arguments model_change {E} callback.
Arguments at_new_Date {E} now.
Arguments at_model_change {E} inside outcome.
Arguments steps {E W} f.
Arguments outcomes {E W} f.
Arguments world_after {E W} f.
Arguments ui_componentFactory_add {E} name callback.
Arguments for_of {E} fuel ranges body.
Arguments change_callback {E} now fuel.
Arguments play_listener {E A} h clock p w.
Arguments fire {E} h clock fuel listeners w.
Arguments click {E} components name locale h clock fuel w.
Arguments button_locale {E} b.
Arguments label {E} b.
Arguments withText {E} b.
Arguments on_execute {E} b.
Arguments writes {E} j.
Arguments yielded {E} j.
Arguments drains {E} h it w ranges w'.
End Timestamp.

(** ** creating-simple-plugin-timestamp.md: starting the editor

    Every listing of the guide ends with the same chain:
    [ClassicEditor.create( element, config ).then( ... ).catch( ... )].
    The listings that declare a [Timestamp] class hand it to the editor in
    [config.plugins]; the framework calls its [init()] while it creates the
    editor, before the promise settles. *)

Module Tutorial.
Section App.
(** DOM elements, editor instances and rejection reasons come from the
    browser and the framework. *)
Context (E : Engine) {Element Editor Reason : Type}.

Record EditorConfig : Type := {
  plugins : list string;
  toolbar : list string
}.

Inductive Logged : Type :=
| logged_text (s : string)
| logged_editor (editor : Editor)
| logged_reason (reason : Reason)
| logged_stack (reason : Reason).   (* the value of [reason.stack] *)

Inductive Settled (V : Type) : Type :=
| fulfilled (value : V)
| rejected (reason : Reason).
Arguments fulfilled {V} value.
Arguments rejected {V} reason.

(** Modelled from the spec: how [ClassicEditor.create] ended; the class is
    the framework's and not among the sources.  An editor is handed out
    only after every plugin was initialised; a creation that fails does so
    before or after the plugins' [init()] ran. *)
Inductive Creation : Type :=
| created (editor : Editor)
| failed (reason : Reason) (initialised : bool).

Inductive AppCall : Type :=
| document_querySelector (selectors : string)
| ClassicEditor_create (element : Element) (config : EditorConfig)
| console_log (arguments : list Logged)
| console_error (arguments : list Logged)
| window_editor_assign (editor : Editor)   (* [window.editor = editor] *)
| plugin (c : Timestamp.PluginCall E).     (* a call of [Timestamp.init] *)

Definition Reply (c : AppCall) : Type :=
  match c with
  | document_querySelector _ => Element
  | ClassicEditor_create _ _ => Creation
  | plugin c => Timestamp.Reply E c
  | _ => unit
  end.

(** A script of the plugin, run as part of the application. *)
Fixpoint within {A} (p : Script (Timestamp.Reply E) A) : Script Reply A :=
  match p with
  | Done a => Done a
  | Ask op next => Ask (Reply := Reply) (plugin op) (fun r => within (next r))
  end.

(** [promise.then( onFulfilled )]: a rejection passes through untouched. *)
Definition then_ {V W} (promise : Script Reply (Settled V))
    (onFulfilled : V -> Script Reply W) : Script Reply (Settled W) :=
  let* settled := promise in
  match settled with
  | fulfilled value => let* w := onFulfilled value in Done (fulfilled w)
  | rejected reason => Done (rejected reason)
  end.

(** [promise.catch( onRejected )]: the handler's result fulfils the chain. *)
Definition catch_ {V} (promise : Script Reply (Settled V))
    (onRejected : Reason -> Script Reply V) : Script Reply (Settled V) :=
  let* settled := promise in
  match settled with
  | fulfilled value => Done (fulfilled value)
  | rejected reason => let* v := onRejected reason in Done (fulfilled v)
  end.

(** [ClassicEditor.create( document.querySelector( selectors ), config )],
    with [Timestamp_init] the [init()] of the listing's own plugin class. *)
Definition create (selectors : string) (config : EditorConfig)
    (Timestamp_init : Script Reply unit) : Script Reply (Settled Editor) :=
  let* element := call (Reply := Reply) (document_querySelector selectors) in
  let* creation := call (Reply := Reply) (ClassicEditor_create element config) in
  match (creation : Creation) with
  | created editor => Timestamp_init >> Done (fulfilled editor)
  | failed reason initialised =>
      (if initialised then Timestamp_init else Done tt) >> Done (rejected reason)
  end.

(** The chain of the three step-by-step listings. *)
Definition start_logging (config : EditorConfig) (Timestamp_init : Script Reply unit)
    : Script Reply (Settled unit) :=
  catch_
    (then_ (create "#editor" config Timestamp_init)
       (fun editor =>
          call (Reply := Reply)
            (console_log [logged_text "Editor was initialized"; logged_editor editor])))
    (fun error => call (Reply := Reply) (console_error [logged_stack error])).

Definition base_toolbar : list string :=
  ["heading"; "bold"; "italic"; "numberedList"; "bulletedList"].

Definition start_config : EditorConfig :=
  {| plugins := ["Essentials"; "Paragraph"; "Heading"; "List"; "Bold"; "Italic"];
     toolbar := base_toolbar |}.

Definition plugin_config : EditorConfig :=
  {| plugins := ["Timestamp"; "Essentials"; "Paragraph"; "Heading"; "List"; "Bold";
                 "Italic"];
     toolbar := base_toolbar |}.

Definition button_config : EditorConfig :=
  {| plugins := ["Timestamp"; "Essentials"; "Paragraph"; "Heading"; "List"; "Bold";
                 "Italic"];
     toolbar := "timestamp" :: base_toolbar |}.

Definition full_config : EditorConfig :=
  {| plugins := ["Essentials"; "Bold"; "Italic"; "Heading"; "List"; "Paragraph";
                 "Timestamp"];
     toolbar := ["heading"; "|"; "bold"; "italic"; "numberedList";
                 "bulletedList"; "|"; "timestamp"] |}.

(** "Let's start": no plugin of the guide's own yet. *)
Definition app_start : Script Reply (Settled unit) :=
  start_logging start_config (Done tt).

(** "Creating a plugin": [init() { console.log( 'Timestamp was initialized.' ); }] *)
Definition Timestamp_init_logging : Script Reply unit :=
  call (Reply := Reply) (console_log [logged_text "Timestamp was initialized."]).

Definition app_with_plugin : Script Reply (Settled unit) :=
  start_logging plugin_config Timestamp_init_logging.

(** "Registering a toolbar button": the button is there and does nothing. *)
Definition app_with_button : Script Reply (Settled unit) :=
  start_logging button_config (within (Timestamp.init_with_button E)).

(** "Full code" *)
Definition app_full : Script Reply (Settled unit) :=
  catch_
    (then_
       (create "#snippet-timestamp-plugin" full_config (within (Timestamp.init E)))
       (fun editor => call (Reply := Reply) (window_editor_assign editor)))
    (fun err => call (Reply := Reply) (console_error [logged_reason err])).

(** *** Reading a host *)

(** The element the host finds for a selector, and how it then settles the
    creation of the editor on that element. *)
Definition found (h : Host Reply) (selectors : string) (w : world h) : Element :=
  fst (respond h (document_querySelector selectors) w).

Definition settles (h : Host Reply) (selectors : string) (config : EditorConfig)
    (w : world h) : Creation :=
  fst (respond h (ClassicEditor_create (found h selectors w) config)
         (snd (respond h (document_querySelector selectors) w))).
End App.
Arguments AppCall E Element Editor Reason : clear implicits.
Arguments Reply E Element Editor Reason c : clear implicits.
Arguments Settled Reason V : clear implicits.
Arguments fulfilled {Reason V} value.
Arguments rejected {Reason V} reason.
Arguments Creation Editor Reason : clear implicits.
Arguments created {Editor Reason} editor.
Arguments failed {Editor Reason} reason initialised.
Arguments Logged Editor Reason : clear implicits.
Arguments document_querySelector {E Element Editor Reason} selectors.
Arguments ClassicEditor_create {E Element Editor Reason} element config.
Arguments console_log {E Element Editor Reason} arguments.
Arguments console_error {E Element Editor Reason} arguments.
Arguments window_editor_assign {E Element Editor Reason} editor.
Arguments plugin {E Element Editor Reason} c.
Arguments app_start E {Element Editor Reason}.
Arguments app_with_plugin E {Element Editor Reason}.
Arguments app_with_button E {Element Editor Reason}.
Arguments app_full E {Element Editor Reason}.
Arguments found {E Element Editor Reason} h selectors w.
Arguments settles {E Element Editor Reason} h selectors config w.
Arguments start_config : clear implicits.
Arguments plugin_config : clear implicits.
Arguments button_config : clear implicits.
Arguments full_config : clear implicits.
End Tutorial.


(** ** A reference editor for the font plugin *)

Module ReferenceEditor.
Section Editor.
Context {AttributeDefinition : Type}.
(** The two utilities of the font package, whose code is elsewhere. *)
Variable normalize : list ConfiguredOption -> list FontFamilyOption.
Variable build : string -> list FontFamilyOption -> AttributeDefinition.

Inductive ConversionRule : Type :=
| two_way (definition : AttributeDefinition)
| downcast_rule (model : string) (view : string -> AttributeElement)
| upcast_rule (pattern : MatcherPattern) (key : string)
    (value : ViewElement -> option string).

(** Modelled from the spec: the editor with its configuration, schema,
    conversion and command registries is the host framework, which the
    plugins are loaded into and which is not among the sources.  Each
    registry keeps what was registered; registering defaults fills in only
    what the configuration does not set already. *)
Record Editor : Type := {
  config : gmap string FontFamilyConfig;
  allowed_attributes : list (string * string);
  attribute_properties : gmap string AttributeProperties;
  conversion : list ConversionRule;
  commands : gmap string Command
}.

Definition or_else {A} (set : option A) (default : option A) : option A :=
  match set with Some a => Some a | None => default end.

Definition define (name : string) (defaults : FontFamilyConfig)
    (c : gmap string FontFamilyConfig) : gmap string FontFamilyConfig :=
  match c !! name with
  | Some current =>
      <[name := {| options := or_else (options current) (options defaults);
                   supportAllValues :=
                     or_else (supportAllValues current) (supportAllValues defaults) |}]> c
  | None => <[name := defaults]> c
  end.

(** [config.get( 'fontFamily.options' )!]: the source asserts the value is
    there, which it is once the constructor has run; before that the model
    answers with no options. *)
Definition get_options (c : gmap string FontFamilyConfig) : list ConfiguredOption :=
  match c !! "fontFamily" with
  | Some {| options := Some configured |} => configured
  | _ => []
  end.

Definition get_supportAllValues (c : gmap string FontFamilyConfig) : option bool :=
  match c !! "fontFamily" with
  | Some current => supportAllValues current
  | None => None
  end.

Definition with_config (c : gmap string FontFamilyConfig) (e : Editor) : Editor :=
  {| config := c; allowed_attributes := allowed_attributes e;
     attribute_properties := attribute_properties e;
     conversion := conversion e; commands := commands e |}.

Definition with_rule (r : ConversionRule) (e : Editor) : Editor :=
  {| config := config e; allowed_attributes := allowed_attributes e;
     attribute_properties := attribute_properties e;
     conversion := conversion e ++ [r]; commands := commands e |}.

Import FontFamilyEditing.

Definition respond_editor (c : PluginCall AttributeDefinition) (e : Editor)
    : Reply AttributeDefinition c * Editor :=
  match c return Reply AttributeDefinition c * Editor with
  | config_define name defaults => (tt, with_config (define name defaults (config e)) e)
  | config_get path =>
      match path return Reply AttributeDefinition (config_get path) * Editor with
      | fontFamily_options => (get_options (config e), e)
      | fontFamily_supportAllValues => (get_supportAllValues (config e), e)
      end
  | schema_extend item attribute =>
      (tt, {| config := config e;
              allowed_attributes := allowed_attributes e ++ [(item, attribute)];
              attribute_properties := attribute_properties e;
              conversion := conversion e; commands := commands e |})
  | schema_setAttributeProperties attribute properties =>
      (tt, {| config := config e; allowed_attributes := allowed_attributes e;
              attribute_properties := <[attribute := properties]> (attribute_properties e);
              conversion := conversion e; commands := commands e |})
  | normalizeOptions configured => (normalize configured, e)
  | buildDefinition key opts => (build key opts, e)
  | conversion_attributeToElement definition => (tt, with_rule (two_way definition) e)
  | conversion_for_downcast_attributeToElement model view =>
      (tt, with_rule (downcast_rule model view) e)
  | conversion_for_upcast_elementToAttribute pattern key value =>
      (tt, with_rule (upcast_rule pattern key value) e)
  | commands_add name command =>
      (tt, {| config := config e; allowed_attributes := allowed_attributes e;
              attribute_properties := attribute_properties e;
              conversion := conversion e; commands := <[name := command]> (commands e) |})
  end.

Definition host : Host (Reply AttributeDefinition) :=
  {| world := Editor; respond := respond_editor |}.

(** An editor created with the given [fontFamily] configuration, if any. *)
Definition new_editor (fontFamily : option FontFamilyConfig) : Editor :=
  {| config := match fontFamily with
               | Some c => {[ "fontFamily" := c ]}
               | None => ∅
               end;
     allowed_attributes := []; attribute_properties := ∅;
     conversion := []; commands := ∅ |}.

(** The attribute values the upcast converters of an editor read off a
    view element, and the elements its downcast converters make. *)
Definition upcast (e : Editor) (viewElement : ViewElement) : list (string * option string) :=
  flat_map
    (fun r => match r with
              | upcast_rule pattern key value =>
                  if pattern_matches pattern viewElement then [(key, value viewElement)]
                  else []
              | _ => []
              end)
    (conversion e).

Definition downcast (e : Editor) (key attributeValue : string) : list AttributeElement :=
  flat_map
    (fun r => match r with
              | downcast_rule model view =>
                  if String.eqb model key then [view attributeValue] else []
              | _ => []
              end)
    (conversion e).

(** The editor of a user who set [supportAllValues: true], once the plugin
    is loaded. *)
Definition any_value_editor (configured : option (list ConfiguredOption)) : Editor :=
  after (play host load
           (new_editor (Some {| options := configured; supportAllValues := Some true |}))).
End Editor.
Arguments Editor AttributeDefinition : clear implicits.
Arguments ConversionRule AttributeDefinition : clear implicits.
End ReferenceEditor.

(** ** A reference engine for the timestamp plugin *)

Module ReferenceEngine.
(** Modelled from the spec: the document model, its writer and the live
    selection of the document belong to the engine, which is not among the
    sources.  The model is reduced to one run of text; a position is an
    offset into it, the selection is the caret or one selected fragment and
    follows the edits, a date is kept as its rendering. *)
Definition flat : Engine :=
  {| Position := nat; Range := nat * nat; RangeIterator := nat;
     Date := string; toString := fun date => date; Locale := string |}.

Record Document : Type := {
  content : list ascii;
  selection : nat * nat;
  iterators : list nat;   (* how many ranges each iterator has yielded *)
  time : string
}.

(** Where a boundary of the selection goes when [howMany] characters are
    inserted at [position]: text put at the start of a fragment, or at the
    caret, ends up before the selection. *)
Definition after_insertion (position howMany : nat) (range : nat * nat) : nat * nat :=
  let '(from, to) := range in
  (if (position <=? from)%nat then from + howMany else from,
   if (from =? to)%nat
   then (if (position <=? to)%nat then to + howMany else to)
   else (if (position <? to)%nat then to + howMany else to)).

Definition boundary_after_removal (from to boundary : nat) : nat :=
  if (boundary <=? from)%nat then boundary
  else if (boundary <? to)%nat then from
  else boundary - (to - from).

Definition after_removal (removed range : nat * nat) : nat * nat :=
  let '(from, to) := removed in
  (boundary_after_removal from to (fst range), boundary_after_removal from to (snd range)).

Import Timestamp.

Definition respond_flat (c : ModelCall flat) (d : Document) : ModelReply flat c * Document :=
  match c return ModelReply flat c * Document with
  | selection_getFirstPosition => (fst (selection d), d)
  | selection_getRanges =>
      (length (iterators d),
       {| content := content d; selection := selection d;
          iterators := iterators d ++ [0]; time := time d |})
  | iterator_next ranges =>
      match iterators d !! ranges with
      | Some 0 =>
          (Some (selection d),
           {| content := content d; selection := selection d;
              iterators := <[ranges := 1]> (iterators d); time := time d |})
      | _ => (None, d)
      end
  | writer_insertText text position =>
      let inserted := list_ascii_of_string text in
      (tt, {| content := take position (content d) ++ inserted ++ drop position (content d);
              selection := after_insertion position (length inserted) (selection d);
              iterators := iterators d; time := time d |})
  | writer_remove range =>
      (tt, {| content := take (fst range) (content d) ++ drop (snd range) (content d);
              selection := after_removal range (selection d);
              iterators := iterators d; time := time d |})
  end.

Definition host : Host (ModelReply flat) :=
  {| world := Document; respond := respond_flat |}.

Definition clock (d : Document) : string := time d.

Definition open_document (text : string) (from to : nat) (now : string) : Document :=
  {| content := list_ascii_of_string text; selection := (from, to);
     iterators := []; time := now |}.

(** The selection lies inside the document. *)
Definition selection_in_bounds (d : Document) : Prop :=
  fst (selection d) <= snd (selection d) /\ snd (selection d) <= length (content d).
End ReferenceEngine.

(** ** An engine whose selection holds several ranges *)

Module LiveEngine.
Import Timestamp.

(** Modelled from the spec: the document model, its writer and the live
    selection of the document belong to the engine, which is not among the
    sources.  As in [ReferenceEngine] the model is one run of text and the
    ranges of the selection follow the edits.  Here the selection keeps an
    array of ranges: [getRanges()] walks that array by index while the loop
    runs, a range whose content is removed leaves the array, and a selection
    left without a range gets a caret where the content was removed. *)
Record Document : Type := {
  content : list ascii;
  ranges : list (nat * nat);
  iterators : list nat;   (* the index each iterator has reached *)
  time : string
}.

(** The start that comes first in the document. *)
Definition first_position (selected : list (nat * nat)) : nat :=
  match selected with
  | [] => 0
  | range :: more => fold_left Nat.min (map fst more) (fst range)
  end.

(** A selected fragment that lies within the removed range goes with it. *)
Definition goes_with (removed range : nat * nat) : bool :=
  (fst range <? snd range)%nat
  && (fst removed <=? fst range)%nat
  && (snd range <=? snd removed)%nat.

Definition ranges_after_removal (removed : nat * nat) (selected : list (nat * nat))
    : list (nat * nat) :=
  match
    flat_map
      (fun range =>
         if goes_with removed range then []
         else [ReferenceEngine.after_removal removed range])
      selected
  with
  | [] => [(fst removed, fst removed)]
  | kept => kept
  end.

Definition respond_live (c : ModelCall ReferenceEngine.flat) (d : Document)
    : ModelReply ReferenceEngine.flat c * Document :=
  match c return ModelReply ReferenceEngine.flat c * Document with
  | selection_getFirstPosition => (first_position (ranges d), d)
  | selection_getRanges =>
      (length (iterators d),
       {| content := content d; ranges := ranges d;
          iterators := iterators d ++ [0]; time := time d |})
  | iterator_next it =>
      match iterators d !! it with
      | Some index =>
          match ranges d !! index with
          | Some range =>
              (Some range,
               {| content := content d; ranges := ranges d;
                  iterators := <[it := S index]> (iterators d); time := time d |})
          | None => (None, d)
          end
      | None => (None, d)
      end
  | writer_insertText text position =>
      let inserted := list_ascii_of_string text in
      (tt, {| content := take position (content d) ++ inserted ++ drop position (content d);
              ranges := map (ReferenceEngine.after_insertion position (length inserted))
                          (ranges d);
              iterators := iterators d; time := time d |})
  | writer_remove range =>
      (tt, {| content := take (fst range) (content d) ++ drop (snd range) (content d);
              ranges := ranges_after_removal range (ranges d);
              iterators := iterators d; time := time d |})
  end.

Definition host : Host (ModelReply ReferenceEngine.flat) :=
  {| world := Document; respond := respond_live |}.

Definition clock (d : Document) : string := time d.

Definition open_document (text : string) (selected : list (nat * nat)) (now : string)
    : Document :=
  {| content := list_ascii_of_string text; ranges := selected;
     iterators := []; time := now |}.

(** The text a range covers. *)
Definition text_of (d : Document) (range : nat * nat) : string :=
  string_of_list_ascii (take (snd range - fst range) (drop (fst range) (content d))).
End LiveEngine.

(** ** A reference browser for the listings of the guide *)

Module ReferenceBrowser.
Import Tutorial.

(** Modelled from the spec: editor creation, the console and the component
    factory are the browser's and the framework's; here creation ends the
    way fixed in advance, the console keeps what was logged and the factory
    keeps the names registered. *)
Record Browser : Type := {
  creation : Creation nat string;
  console : list (Logged nat string);
  window_editor : option nat;
  components : list string
}.

Definition respond_browser (c : AppCall ReferenceEngine.flat string nat string) (b : Browser)
    : Reply ReferenceEngine.flat string nat string c * Browser :=
  match c return Reply ReferenceEngine.flat string nat string c * Browser with
  | document_querySelector selectors => (selectors, b)
  | ClassicEditor_create _ _ => (creation b, b)
  | console_log arguments =>
      (tt, {| creation := creation b; console := console b ++ arguments;
              window_editor := window_editor b; components := components b |})
  | console_error arguments =>
      (tt, {| creation := creation b; console := console b ++ arguments;
              window_editor := window_editor b; components := components b |})
  | window_editor_assign editor =>
      (tt, {| creation := creation b; console := console b;
              window_editor := Some editor; components := components b |})
  | plugin (Timestamp.ui_componentFactory_add name _) =>
      (tt, {| creation := creation b; console := console b;
              window_editor := window_editor b; components := components b ++ [name] |})
  end.

Definition host : Host (Reply ReferenceEngine.flat string nat string) :=
  {| world := Browser; respond := respond_browser |}.

Definition browser (outcome : Creation nat string) : Browser :=
  {| creation := outcome; console := []; window_editor := None; components := [] |}.
End ReferenceBrowser.

(** * Properties *)

(** ** Scripts *)

Lemma play_andThen {Op} {Reply : Op -> Type} {A B} (h : Host Reply)
    (p : Script Reply A) (f : A -> Script Reply B) (w : world h) :
  let first := play h p w in
  let second := play h (f (result first)) (after first) in
  journal (play h (andThen p f) w) = journal first ++ journal second
  /\ result (play h (andThen p f) w) = result second
  /\ after (play h (andThen p f) w) = after second.
Proof.
  revert w. induction p as [a | op next IH]; intros w; simpl.
  - auto.
  - destruct (respond h op w) as [r w1]. simpl.
    destruct (IH r w1) as (Hj & Hr & Ha).
    rewrite Hj, Hr, Ha. auto.
Qed.

Lemma without_prefix_append (prefix rest : string) :
  without_prefix prefix (prefix +:+ rest) = Some rest.
Proof.
  induction prefix as [| a prefix IH]; simpl.
  - reflexivity.
  - rewrite Ascii.eqb_refl. exact IH.
Qed.

Lemma font_family_declared (value : string) :
  declared_value "font-family" ("font-family:" +:+ value) = Some value.
Proof. exact (without_prefix_append "font-family:" value). Qed.

(** ** FontFamilyEditing *)

Ltac answer :=
  match goal with
  | |- context [respond ?h ?op ?w] =>
      let r := fresh "r" in
      let w' := fresh "w" in
      destruct (respond h op w) as [r w'] eqn:?; simpl in *
  end.

Section FontFamilyEditingFacts.
Import FontFamilyEditing.
Context {D : Type}.
Implicit Types (h : Host (Reply D)).

(** Everything [init] does, for whatever the host replies. *)
Lemma init_journal h (w : world h) :
  exists configured norm definition flag,
    calls h init w =
      [ schema_extend "$text" FONT_FAMILY;
        schema_setAttributeProperties FONT_FAMILY
          {| isFormatting := true; copyOnEnter := true |};
        config_get fontFamily_options;
        normalizeOptions configured;
        buildDefinition FONT_FAMILY (without_default norm);
        config_get fontFamily_supportAllValues ]
      ++ (if truthy (flag : option bool) then any_value_registrations
          else [ conversion_attributeToElement definition ])
      ++ [ commands_add FONT_FAMILY FontFamilyCommand ]
    /\ options_read (journal (play h init w)) = [configured]
    /\ normalized (journal (play h init w)) = [(configured, norm)]
    /\ built (journal (play h init w)) = [(FONT_FAMILY, without_default norm, definition)]
    /\ supportAllValues_read (journal (play h init w)) = [flag].
Proof.
  unfold calls, init. simpl.
  do 6 answer.
  exists r1, r2, r3, r4.
  destruct r4 as [[|]|]; simpl; repeat answer; auto.
Qed.

Lemma constructor_calls h (w : world h) :
  calls h constructor w = [config_define FONT_FAMILY default_configuration].
Proof. unfold calls, constructor. simpl. answer. reflexivity. Qed.

Lemma load_calls h (w : world h) :
  calls h load w =
    config_define FONT_FAMILY default_configuration
      :: calls h init (after (play h constructor w)).
Proof.
  unfold calls, load.
  destruct (play_andThen h constructor (fun _ => init) w) as (Hj & _ & _).
  rewrite Hj, map_app. fold (calls h constructor w). rewrite constructor_calls.
  reflexivity.
Qed.

Lemma without_default_sublist (norm : list FontFamilyOption) :
  sublist (without_default norm) norm.
Proof.
  induction norm as [| item norm IH]; simpl.
  - constructor.
  - destruct (truthy (model item)); now constructor.
Qed.

Lemma without_default_keeps (norm : list FontFamilyOption) (item : FontFamilyOption) :
  In item (without_default norm) <-> In item norm /\ truthy (model item) = true.
Proof. unfold without_default. apply filter_In. Qed.
End FontFamilyEditingFacts.

Section ReferenceEditorFacts.
Import FontFamilyEditing.
Context {D : Type}.
Variable normalize : list ConfiguredOption -> list FontFamilyOption.
Variable build : string -> list FontFamilyOption -> D.

Lemma get_supportAllValues_define (defaults : FontFamilyConfig)
    (c : gmap string FontFamilyConfig) :
  ReferenceEditor.get_supportAllValues (ReferenceEditor.define FONT_FAMILY defaults c)
  = ReferenceEditor.or_else (ReferenceEditor.get_supportAllValues c)
      (supportAllValues defaults).
Proof.
  unfold ReferenceEditor.get_supportAllValues, ReferenceEditor.define, FONT_FAMILY.
  destruct (c !! "fontFamily") as [current |] eqn:Hc.
  - now rewrite lookup_insert_eq.
  - now rewrite lookup_insert_eq.
Qed.

(** The conversion rules of an editor into which the plugin was loaded. *)
Lemma loaded_conversion (fontFamily : option FontFamilyConfig) :
  exists definition,
    ReferenceEditor.conversion
      (after (play (ReferenceEditor.host normalize build) load
                (ReferenceEditor.new_editor fontFamily)))
    = if truthy
           (ReferenceEditor.or_else
              (match fontFamily with
               | Some set => supportAllValues set
               | None => None
               end)
              (Some false))
      then [ ReferenceEditor.downcast_rule FONT_FAMILY anyValue_view;
             ReferenceEditor.upcast_rule anyValue_pattern FONT_FAMILY anyValue_value;
             ReferenceEditor.upcast_rule compatibility_pattern FONT_FAMILY
               compatibility_value ]
      else [ ReferenceEditor.two_way definition ].
Proof.
  eexists. cbn -[ReferenceEditor.define ReferenceEditor.get_supportAllValues
                 ReferenceEditor.get_options without_default].
  rewrite get_supportAllValues_define. cbn [supportAllValues default_configuration].
  replace (ReferenceEditor.get_supportAllValues _)
    with (match fontFamily with Some set => supportAllValues set | None => None end).
  - destruct (truthy _); reflexivity.
  - destruct fontFamily; reflexivity.
Qed.

(** A configuration of the user wins over the registered defaults. *)
Example configured_options_are_kept :
  ReferenceEditor.get_options
    (ReferenceEditor.config
       (after (play (ReferenceEditor.host normalize build) constructor
                 (ReferenceEditor.new_editor
                    (Some {| options := Some [option_string "Arial"];
                             supportAllValues := None |})))))
  = [option_string "Arial"].
Proof. reflexivity. Qed.

(** An option without a model, or with an empty one, is left out. *)
Example without_default_drops_falsy_models :
  without_default
    [ {| title := "Default"; model := None; view := None; upcastAlso := None |};
      {| title := "Arial"; model := Some "Arial"; view := None; upcastAlso := None |};
      {| title := "Empty"; model := Some ""; view := None; upcastAlso := None |} ]
  = [ {| title := "Arial"; model := Some "Arial"; view := None; upcastAlso := None |} ].
Proof. reflexivity. Qed.
End ReferenceEditorFacts.

Section FontFamilyEditingClaims.
Import FontFamilyEditing.

(** C1, as amended.  Whatever the host replies, [init] hands the list it
    read from [editor.config.get( 'fontFamily.options' )] to
    [normalizeOptions] as it is, and hands to [buildDefinition] the
    normalised list without the entries whose [model] is falsy: what is
    left is a sublist of the normalised list (nothing altered, nothing
    reordered) and holds exactly its entries with a truthy [model]. *)
Theorem options_normalized_then_filtered {D : Type} (h : Host (Reply D)) (w : world h) :
  exists configured norm,
    options_read (journal (play h init w)) = [configured]
    /\ normalized (journal (play h init w)) = [(configured, norm)]
    /\ handed_to_builder (journal (play h init w)) = [without_default norm]
    /\ sublist (without_default norm) norm
    /\ (forall item,
          In item (without_default norm) <-> In item norm /\ truthy (model item) = true).
Proof.
  destruct (init_journal h w) as (configured & norm & definition & flag & _ & Ho & Hn & Hb & _).
  exists configured, norm.
  unfold handed_to_builder. rewrite Ho, Hn, Hb. simpl.
  split; [reflexivity |]. split; [reflexivity |]. split; [reflexivity |].
  split; [apply without_default_sublist | intros item; apply without_default_keeps].
Qed.

(** C1, as stated, fails for the default configuration: the list read from
    the configuration is the nine default entries, and whatever
    [normalizeOptions] returns, the list that reaches [buildDefinition] is
    not that list. *)
Lemma default_options_reach_builder_changed :
  (forall normalize : list ConfiguredOption -> list FontFamilyOption,
     options_read
       (journal (play (ReferenceEditor.host normalize pair) load (ReferenceEditor.new_editor None)))
     = [default_options])
  /\ (forall normalize : list ConfiguredOption -> list FontFamilyOption,
        exists handed,
          handed_to_builder
            (journal (play (ReferenceEditor.host normalize pair) load
                        (ReferenceEditor.new_editor None)))
          = [handed]
          /\ ~ passed_unmodified default_options handed).
Proof.
  split; intros normalize.
  - reflexivity.
  - exists (without_default (normalize default_options)). split.
    + reflexivity.
    + unfold passed_unmodified.
      destruct (without_default (normalize default_options)); discriminate.
Qed.

(** C3, as stated, fails: loading [FontFamilyEditing] with the default
    configuration reads the configuration and registers attribute
    properties; with [supportAllValues] set it registers
    element-to-attribute converters; and [Timestamp.init] registers a UI
    component.  None of these is one of the four listed kinds. *)
Lemma plugin_calls_outside_listed_kinds :
  (forall normalize : list ConfiguredOption -> list FontFamilyOption,
     only_listed_kinds
       (map kind_of
          (calls (ReferenceEditor.host normalize pair) load (ReferenceEditor.new_editor None)))
     = false)
  /\ (forall normalize : list ConfiguredOption -> list FontFamilyOption,
        map kind_of
          (calls (ReferenceEditor.host normalize pair) load
             (ReferenceEditor.new_editor
                (Some {| options := None; supportAllValues := Some true |})))
        = [ default_configuration_registration; schema_allow_list_extension;
            schema_attribute_properties_registration; configuration_read;
            package_utility; package_utility; configuration_read;
            attribute_to_element_rule_registration;
            element_to_attribute_rule_registration;
            element_to_attribute_rule_registration; command_registration ])
  /\ only_listed_kinds
       (map (Timestamp.kind_of ReferenceEngine.flat)
          (calls (Timestamp.component_factory ReferenceEngine.flat)
             (Timestamp.init ReferenceEngine.flat) ∅))
     = false.
Proof. split; [| split]; reflexivity. Qed.

(** C3, as amended.  For every host, the calls of [FontFamilyEditing]
    (constructor, then [init]) are, in order: a default-configuration
    registration, a schema allow-list extension, a registration of
    attribute properties, a configuration read, two utilities of the font
    package, a second configuration read, then either one
    attribute-to-element registration or, when [supportAllValues] is
    truthy, one attribute-to-element and two element-to-attribute
    registrations, and last a command registration.  [Timestamp.init]
    makes one call, the registration of a UI component, and
    [FontSize.normalizeSizeOptions] calls the utility of its package only. *)
Theorem plugin_calls_by_kind {D : Type} (h : Host (Reply D)) (w : world h)
    (E : Engine) (t : Host (Timestamp.Reply E)) (u : world t)
    (Configured FontSizeOption : Type)
    (s : Host (FontSize.Reply (Configured := Configured) (FontSizeOption := FontSizeOption)))
    (v : world s) (configuredOptions : list Configured) :
  (exists flag,
     supportAllValues_read (journal (play h init (after (play h constructor w)))) = [flag]
     /\ map kind_of (calls h load w)
        = default_configuration_registration :: kinds_before_conversion
          ++ (if truthy (flag : option bool)
              then [ attribute_to_element_rule_registration;
                     element_to_attribute_rule_registration;
                     element_to_attribute_rule_registration ]
              else [ attribute_to_element_rule_registration ])
          ++ [ command_registration ])
  /\ calls t (Timestamp.init E) u
     = [ Timestamp.ui_componentFactory_add "timestamp" (Timestamp.factory E) ]
  /\ map (Timestamp.kind_of E) (calls t (Timestamp.init E) u) = [ ui_component_registration ]
  /\ map FontSize.kind_of (calls s (FontSize.normalizeSizeOptions configuredOptions) v)
     = [ package_utility ].
Proof.
  split.
  - destruct (init_journal h (after (play h constructor w)))
      as (configured & norm & definition & flag & Hc & _ & _ & _ & Hf).
    exists flag. split; [exact Hf |].
    rewrite load_calls, Hc. destruct flag as [[|]|]; reflexivity.
  - unfold calls, Timestamp.init, FontSize.normalizeSizeOptions. simpl.
    destruct (respond t _ u). destruct (respond s _ v). simpl. repeat split.
Qed.

(** C4, as stated, fails: with the utility as documented, the
    normalisation of the nine default options has nine entries, the first
    of them the ['default'] entry without a model, and what [init] passes to
    [buildDefinition] is not that list but its eight entries with a model. *)
Lemma default_entry_never_reaches_builder :
  exists norm handed,
    map snd
      (normalized
         (journal (play (ReferenceEditor.host FontFamilyUtils.normalizeOptions pair) load
                     (ReferenceEditor.new_editor None))))
    = [norm]
    /\ handed_to_builder
         (journal (play (ReferenceEditor.host FontFamilyUtils.normalizeOptions pair) load
                     (ReferenceEditor.new_editor None)))
       = [handed]
    /\ map model norm
       = [ None; Some "Arial"; Some "Courier New"; Some "Georgia";
           Some "Lucida Sans Unicode"; Some "Tahoma"; Some "Times New Roman";
           Some "Trebuchet MS"; Some "Verdana" ]
    /\ map model handed
       = [ Some "Arial"; Some "Courier New"; Some "Georgia";
           Some "Lucida Sans Unicode"; Some "Tahoma"; Some "Times New Roman";
           Some "Trebuchet MS"; Some "Verdana" ]
    /\ handed <> norm.
Proof.
  eexists. eexists.
  split; [reflexivity |]. split; [reflexivity |].
  split; [reflexivity |]. split; [reflexivity |].
  intros H. apply (f_equal (@length _)) in H. discriminate H.
Qed.

(** C4, as amended.  The constructor registers, under [fontFamily], the nine
    options (['default'] and the eight families) with [supportAllValues]
    false.  In an editor created without a [fontFamily] configuration these
    are what [init] reads, and the list it passes to [buildDefinition] is
    the normalisation of the nine options with the entries removed whose
    model is missing or empty, the others kept in order; the definition so
    built is the one rule registered. *)
Theorem default_options_filtered_for_builder {D : Type}
    (normalize : list ConfiguredOption -> list FontFamilyOption)
    (build : string -> list FontFamilyOption -> D)
    (h : Host (Reply D)) (w : world h) :
  let editor := ReferenceEditor.host normalize build in
  let fresh := ReferenceEditor.new_editor None in
  let nine :=
    [ option_string "default";
      option_string "Arial, Helvetica, sans-serif";
      option_string "Courier New, Courier, monospace";
      option_string "Georgia, serif";
      option_string "Lucida Sans Unicode, Lucida Grande, sans-serif";
      option_string "Tahoma, Geneva, sans-serif";
      option_string "Times New Roman, Times, serif";
      option_string "Trebuchet MS, Helvetica, sans-serif";
      option_string "Verdana, Geneva, sans-serif" ] in
  let with_model :=
    List.filter
      (fun item =>
         match model item with
         | Some name => negb (String.eqb name "")
         | None => false
         end)
      (normalize nine) in
  calls h constructor w
    = [ config_define "fontFamily" {| options := Some nine; supportAllValues := Some false |} ]
  /\ length nine = 9
  /\ ReferenceEditor.config (after (play editor constructor fresh)) !! "fontFamily"
     = Some {| options := Some nine; supportAllValues := Some false |}
  /\ options_read (journal (play editor load fresh)) = [nine]
  /\ supportAllValues_read (journal (play editor load fresh)) = [Some false]
  /\ normalized (journal (play editor load fresh)) = [(nine, normalize nine)]
  /\ built (journal (play editor load fresh))
     = [ ("fontFamily", with_model, build "fontFamily" with_model) ]
  /\ ReferenceEditor.conversion (after (play editor load fresh))
     = [ ReferenceEditor.two_way (build "fontFamily" with_model) ].
Proof.
  intros editor fresh nine with_model.
  split; [apply constructor_calls |].
  repeat split.
Qed.

(** C6.  The constructor reads no configuration; [init] reads
    [fontFamily.options] once and [fontFamily.supportAllValues] once, for
    every host.  Replacing the configuration of an editor after the plugin
    was loaded changes neither the registered conversion rules and
    commands nor what the converters do. *)
Theorem configuration_read_once_at_init {D : Type} (h : Host (Reply D)) (w : world h)
    (normalize : list ConfiguredOption -> list FontFamilyOption)
    (build : string -> list FontFamilyOption -> D)
    (editor : ReferenceEditor.Editor D) (later : gmap string FontFamilyConfig) :
  List.filter is_configuration_read (calls h constructor w) = []
  /\ List.filter is_configuration_read (calls h init w)
     = [ config_get fontFamily_options; config_get fontFamily_supportAllValues ]
  /\ let loaded := after (play (ReferenceEditor.host normalize build) load editor) in
     let mutated := ReferenceEditor.with_config later loaded in
     ReferenceEditor.conversion mutated = ReferenceEditor.conversion loaded
     /\ ReferenceEditor.commands mutated = ReferenceEditor.commands loaded
     /\ (forall viewElement,
           ReferenceEditor.upcast mutated viewElement
           = ReferenceEditor.upcast loaded viewElement)
     /\ (forall key attributeValue,
           ReferenceEditor.downcast mutated key attributeValue
           = ReferenceEditor.downcast loaded key attributeValue).
Proof.
  split; [now rewrite constructor_calls |].
  split.
  - destruct (init_journal h w) as (configured & norm & definition & flag & Hc & _).
    rewrite Hc. destruct flag as [[|]|]; reflexivity.
  - repeat split.
Qed.

(** C8.  For every host, the conversion calls of [init] are decided by the
    value read for [fontFamily.supportAllValues]: when it is truthy, the
    any-value downcast and upcast converters and the [<font face>] upcast
    converter, and not the definition built from the options; otherwise
    the built definition alone. *)
Theorem one_conversion_setup {D : Type} (h : Host (Reply D)) (w : world h) :
  exists flag opts definition,
    supportAllValues_read (journal (play h init w)) = [flag]
    /\ built (journal (play h init w)) = [(FONT_FAMILY, opts, definition)]
    /\ List.filter is_conversion (calls h init w)
       = if truthy (flag : option bool)
         then [ conversion_for_downcast_attributeToElement FONT_FAMILY anyValue_view;
                conversion_for_upcast_elementToAttribute anyValue_pattern FONT_FAMILY
                  anyValue_value;
                conversion_for_upcast_elementToAttribute compatibility_pattern FONT_FAMILY
                  compatibility_value ]
         else [ conversion_attributeToElement definition ].
Proof.
  destruct (init_journal h w) as (configured & norm & definition & flag & Hc & _ & _ & Hb & Hf).
  exists flag, (without_default norm), definition.
  split; [exact Hf |]. split; [exact Hb |].
  rewrite Hc. destruct flag as [[|]|]; reflexivity.
Qed.

(** C10.  In an editor configured with [supportAllValues: true], a view
    [span] whose [font-family] style is [V] upcasts to the attribute
    [fontFamily = V], and [V] downcasts to one attribute element [span] of
    priority 7 whose [style] is ['font-family:' + V], from which the
    [font-family] value read back is [V]. *)
Theorem any_value_round_trip {D : Type}
    (normalize : list ConfiguredOption -> list FontFamilyOption)
    (build : string -> list FontFamilyOption -> D)
    (configured : option (list ConfiguredOption))
    (viewElement : ViewElement) (V : string) :
  element_name viewElement = "span" ->
  getStyle viewElement "font-family" = Some V ->
  let editor :=
    after (play (ReferenceEditor.host normalize build) load
             (ReferenceEditor.new_editor
                (Some {| options := configured; supportAllValues := Some true |}))) in
  ReferenceEditor.upcast editor viewElement = [("fontFamily", Some V)]
  /\ ReferenceEditor.downcast editor "fontFamily" V
     = [ createAttributeElement "span" [("style", "font-family:" +:+ V)] 7 ]
  /\ Forall
       (fun made =>
          attribute_element_name made = "span"
          /\ attribute_element_priority made = 7
          /\ exists style,
               attribute_value "style" (attribute_element_attributes made) = Some style
               /\ declared_value "font-family" style = Some V)
       (ReferenceEditor.downcast editor "fontFamily" V).
Proof.
  intros Hname Hstyle editor.
  destruct (loaded_conversion normalize build
              (Some {| options := configured; supportAllValues := Some true |}))
    as (definition & Hrules).
  fold editor in Hrules.
  replace (truthy _) with true in Hrules by reflexivity.
  assert (Hup : ReferenceEditor.upcast editor viewElement = [("fontFamily", Some V)]).
  { unfold ReferenceEditor.upcast. rewrite Hrules. cbn.
    unfold pattern_matches, key_matches, anyValue_value. cbn.
    rewrite Hname, Hstyle. reflexivity. }
  assert (Hdown : ReferenceEditor.downcast editor "fontFamily" V
                  = [ createAttributeElement "span" [("style", "font-family:" +:+ V)] 7 ]).
  { unfold ReferenceEditor.downcast. rewrite Hrules. reflexivity. }
  split; [exact Hup |]. split; [exact Hdown |].
  rewrite Hdown. constructor; [| constructor].
  split; [reflexivity |]. split; [reflexivity |].
  exists ("font-family:" +:+ V). split; [reflexivity | apply font_family_declared].
Qed.

Lemma any_value_round_trip_witness :
  let viewElement :=
    {| element_name := "span";
       element_styles := {[ "font-family" := "Arial" ]};
       element_attributes := ∅ |} in
  ReferenceEditor.upcast
    (after (play (ReferenceEditor.host (fun _ => []) pair) load
              (ReferenceEditor.new_editor
                 (Some {| options := None; supportAllValues := Some true |}))))
    viewElement
  = [("fontFamily", Some "Arial")].
Proof.
  intros viewElement.
  apply (any_value_round_trip (fun _ => []) pair None viewElement "Arial");
    reflexivity.
Defined.
End FontFamilyEditingClaims.

(** ** Timestamp *)

Section TimestampFacts.
Import Timestamp.
Context {E : Engine}.
Variable h : Host (ModelReply E).


(** However long the loop runs, it writes one removal per range handed out. *)
Lemma for_of_writes (it : RangeIterator E) (fuel : nat) (w : world h) :
  writes (journal (play h (for_of fuel it (fun range => call (writer_remove range))) w))
  = map writer_remove (yielded (journal (play h (for_of fuel it (fun range => call (writer_remove range))) w))).
Proof.
  revert w. induction fuel as [| fuel IH]; intros w; simpl.
  - reflexivity.
  - destruct (respond h (iterator_next it) w) as [[range |] w1]; simpl.
    + destruct (respond h (writer_remove range) w1) as [[] w2]. simpl.
      unfold writes in *. simpl. f_equal. apply IH.
    + reflexivity.
Qed.

(** With fuel to spare the loop is the big step. *)
Lemma for_of_drains (it : RangeIterator E) (w : world h) (ranges : list (Range E))
    (w' : world h) :
  drains h it w ranges w' ->
  forall fuel, length ranges < fuel ->
    let run := play h (for_of fuel it (fun range => call (writer_remove range))) w in
    result run = completed /\ after run = w' /\ yielded (journal run) = ranges.
Proof.
  induction 1 as [w w1 Hnext | w range w1 w2 ranges w3 Hnext Hremove _ IH];
    intros fuel Hfuel; (destruct fuel as [| fuel]; [simpl in Hfuel; lia |]); simpl.
  - rewrite Hnext. simpl. auto.
  - rewrite Hnext. simpl.
    destruct (respond h (writer_remove range) w1) as [[] w2'] eqn:Hr. simpl in *.
    subst w2'. destruct (IH fuel ltac:(lia)) as (Hres & Haft & Hy).
    rewrite Hres, Haft, Hy. auto.
Qed.

(** The block handed to [model.change], for whatever the host replies. *)
Lemma change_callback_journal (now : Date E) (fuel : nat) (w : world h) :
  let position := fst (respond h selection_getFirstPosition w) in
  let w1 := snd (respond h selection_getFirstPosition w) in
  let w2 := snd (respond h (writer_insertText (toString E now) position) w1) in
  let it := fst (respond h selection_getRanges w2) in
  let w3 := snd (respond h selection_getRanges w2) in
  let loop := play h (for_of fuel it (fun range => call (writer_remove range))) w3 in
  journal (play h (change_callback now fuel) w)
  = step selection_getFirstPosition position
      :: step (writer_insertText (toString E now) position) tt
      :: step selection_getRanges it
      :: journal loop
  /\ result (play h (change_callback now fuel) w) = result loop
  /\ after (play h (change_callback now fuel) w) = after loop.
Proof.
  unfold change_callback. simpl.
  destruct (respond h selection_getFirstPosition w) as [position w1]. simpl.
  destruct (respond h (writer_insertText (toString E now) position) w1) as [[] w2]. simpl.
  destruct (respond h selection_getRanges w2) as [it w3]. simpl.
  auto.
Qed.

Variable clock : world h -> Date E.

(** Clicking the registered button runs the one listener the plugin attached. *)
Lemma click_timestamp (locale : Locale E) (fuel : nat) (w : world h) :
  let block := play h (change_callback (clock w) fuel) w in
  click (loaded E) "timestamp" locale h clock fuel w
  = Some {| steps := [at_new_Date (clock w); at_model_change (journal block) (result block)];
            outcomes := [result block];
            world_after := after block |}.
Proof. reflexivity. Qed.
End TimestampFacts.

Section ReferenceEngineFacts.
Import Timestamp ReferenceEngine.

Lemma insertion_then_removal (before stamp : list ascii) (from to : nat) :
  from <= to -> to <= length before ->
  let inserted := take from before ++ stamp ++ drop from before in
  take (from + length stamp) inserted ++ drop (to + length stamp) inserted
  = take from before ++ stamp ++ drop to before.
Proof.
  intros Hft Hto inserted. subst inserted.
  assert (Hlen : length (take from before) = from) by (rewrite length_take; lia).
  rewrite (app_assoc (take from before) stamp).
  assert (Hhead : length (take from before ++ stamp) = from + length stamp)
    by (rewrite length_app; lia).
  rewrite <- Hhead at 1. rewrite take_app_length.
  replace (to + length stamp) with (length (take from before ++ stamp) + (to - from))
    by lia.
  rewrite drop_app_add, drop_drop.
  replace (from + (to - from)) with to by lia.
  now rewrite <- app_assoc.
Qed.

Lemma selection_follows_insertion (from to howMany : nat) :
  from <= to ->
  after_insertion from howMany (from, to) = (from + howMany, to + howMany).
Proof.
  intros Hft. unfold after_insertion.
  rewrite Nat.leb_refl.
  destruct (Nat.eqb_spec from to) as [-> | Hne].
  - now rewrite Nat.leb_refl.
  - assert (Hlt : (from <? to)%nat = true) by (apply Nat.ltb_lt; lia).
    now rewrite Hlt.
Qed.

Lemma selection_collapses_on_removal (from to : nat) :
  from <= to -> after_removal (from, to) (from, to) = (from, from).
Proof.
  intros Hft. unfold after_removal, boundary_after_removal. simpl.
  rewrite Nat.leb_refl, Nat.ltb_irrefl.
  destruct (Nat.leb_spec to from); f_equal; lia.
Qed.

(** What the change block does to the reference document. *)
Lemma reference_change (text : string) (from to : nat) (now : string) (fuel : nat) :
  from <= to -> to <= length (list_ascii_of_string text) -> 2 <= fuel ->
  let block := play host (change_callback (E := flat) now fuel)
                 (open_document text from to now) in
  let stamp := list_ascii_of_string now in
  result block = completed
  /\ content (after block)
     = take from (list_ascii_of_string text) ++ stamp ++ drop to (list_ascii_of_string text)
  /\ selection (after block) = (from + length stamp, from + length stamp)
  /\ writes (journal block)
     = [ writer_insertText (E := flat) now from;
         writer_remove (E := flat) (from + length stamp, to + length stamp) ].
Proof.
  intros Hft Hto Hfuel.
  destruct fuel as [| [| fuel]]; [lia | lia |].
  cbn -[take drop after_insertion after_removal].
  rewrite selection_follows_insertion by exact Hft.
  cbn -[take drop after_insertion after_removal].
  rewrite selection_collapses_on_removal by lia.
  rewrite insertion_then_removal by assumption.
  destruct fuel; cbn; auto.
Qed.

(** At the caret nothing is selected, so nothing is removed. *)
Example timestamp_at_the_caret :
  option_map (fun fired => string_of_list_ascii (content (world_after fired)))
    (click (loaded flat) "timestamp" "en" host clock 2
       (open_document "hello world" 2 2 "NOW"))
  = Some "heNOWllo world".
Proof. reflexivity. Qed.

(** A loop cut short says so. *)
Example timestamp_without_fuel :
  option_map (fun fired => outcomes fired)
    (click (loaded flat) "timestamp" "en" host clock 0
       (open_document "hello world" 2 5 "NOW"))
  = Some [out_of_fuel].
Proof. reflexivity. Qed.
End ReferenceEngineFacts.

Section TimestampClaims.
Import Timestamp.

(** X8.  For every engine and every state of it, clicking the registered
    Timestamp button takes the time, opens one change block, inserts
    [now.toString()] at the position [getFirstPosition()] returns and then
    removes each range that the iterator of [getRanges()] hands out while
    the loop runs, in that order and nothing else; the editor is left in the
    state these writes lead to.  Which ranges the iterator hands out is the
    engine's business: [drains] records them. *)
Theorem timestamp_button_inserts_and_removes (E : Engine) (h : Host (ModelReply E))
    (clock : world h -> Date E) (locale : Locale E) (fuel : nat) (w : world h)
    (ranges : list (Range E)) (w' : world h) :
  let now := clock w in
  let position := fst (respond h selection_getFirstPosition w) in
  let w1 := snd (respond h selection_getFirstPosition w) in
  let w2 := snd (respond h (writer_insertText (toString E now) position) w1) in
  let it := fst (respond h selection_getRanges w2) in
  let w3 := snd (respond h selection_getRanges w2) in
  drains h it w3 ranges w' ->
  length ranges < fuel ->
  exists fired inside,
    click (loaded E) "timestamp" locale h clock fuel w = Some fired
    /\ steps fired = [at_new_Date now; at_model_change inside completed]
    /\ writes inside
       = writer_insertText (toString E now) position :: map writer_remove ranges
    /\ yielded inside = ranges
    /\ outcomes fired = [completed]
    /\ world_after fired = w'.
Proof.
  intros now position w1 w2 it w3 Hdrains Hfuel.
  pose proof (change_callback_journal h now fuel w) as (Hj & Hr & Ha).
  pose proof (for_of_drains h it w3 ranges w' Hdrains fuel Hfuel) as (Hres & Haft & Hy).
  pose proof (for_of_writes h it fuel w3) as Hw.
  fold position w1 w2 it w3 in Hj, Hr, Ha.
  rewrite Hy in Hw.
  rewrite click_timestamp. fold now.
  eexists. exists (journal (play h (change_callback now fuel) w)).
  split; [reflexivity |]. cbn [steps outcomes world_after].
  rewrite Hr, Ha, Hres, Haft. split; [reflexivity |].
  rewrite Hj. split; [| split; [| split]]; try reflexivity.
  - unfold writes in *. cbn [map step_op List.filter is_write]. now rewrite Hw.
  - unfold yielded in *. cbn [flat_map app]. exact Hy.
Qed.

Lemma timestamp_button_on_hello_world :
  exists fired inside,
    click (loaded ReferenceEngine.flat) "timestamp" "en" ReferenceEngine.host
      ReferenceEngine.clock 2 (ReferenceEngine.open_document "hello world" 2 5 "NOW")
    = Some fired
    /\ steps fired = [at_new_Date (E := ReferenceEngine.flat) "NOW";
                      at_model_change inside completed]
    /\ writes inside
       = [ writer_insertText (E := ReferenceEngine.flat) "NOW" 2;
           writer_remove (E := ReferenceEngine.flat) (5, 8) ]
    /\ yielded inside = [(5, 8)]
    /\ outcomes fired = [completed]
    /\ string_of_list_ascii (ReferenceEngine.content (world_after fired)) = "heNOW world".
Proof.
  destruct (timestamp_button_inserts_and_removes ReferenceEngine.flat ReferenceEngine.host
              ReferenceEngine.clock "en" 2
              (ReferenceEngine.open_document "hello world" 2 5 "NOW")
              [(5, 8)]
              {| ReferenceEngine.content := list_ascii_of_string "heNOW world";
                 ReferenceEngine.selection := (5, 5);
                 ReferenceEngine.iterators := [1];
                 ReferenceEngine.time := "NOW" |})
    as (fired & inside & Hclick & Hsteps & Hwrites & Hyielded & Houtcomes & Hworld).
  - eapply drains_more; [reflexivity | reflexivity |]. apply drains_done. reflexivity.
  - simpl. lia.
  - exists fired, inside. rewrite Hworld. repeat split; assumption.
Defined.

(** X9.  For every engine, every state of it and however long the loop is
    let run, the click makes one [model.change] block and nothing outside
    it but the reading of the time.  Inside the block come first the read
    of the first position, the insertion of the timestamp there and the
    request for the ranges; every write after that is the removal of a
    range the iterator handed out. *)
Theorem click_is_one_change_block (E : Engine) (h : Host (ModelReply E))
    (clock : world h -> Date E) (locale : Locale E) (fuel : nat) (w : world h) :
  exists fired inside outcome it rest,
    click (loaded E) "timestamp" locale h clock fuel w = Some fired
    /\ steps fired = [at_new_Date (clock w); at_model_change inside outcome]
    /\ inside
       = step selection_getFirstPosition (fst (respond h selection_getFirstPosition w))
           :: step (writer_insertText (toString E (clock w))
                      (fst (respond h selection_getFirstPosition w))) tt
           :: step selection_getRanges it
           :: rest
    /\ writes rest = map writer_remove (yielded rest)
    /\ writes inside
       = writer_insertText (toString E (clock w))
           (fst (respond h selection_getFirstPosition w))
           :: map writer_remove (yielded inside).
Proof.
  pose proof (change_callback_journal h (clock w) fuel w) as (Hj & _ & _).
  pose proof (for_of_writes h
                (fst (respond h selection_getRanges
                        (snd (respond h
                                (writer_insertText (toString E (clock w))
                                   (fst (respond h selection_getFirstPosition w)))
                                (snd (respond h selection_getFirstPosition w))))))
                fuel
                (snd (respond h selection_getRanges
                        (snd (respond h
                                (writer_insertText (toString E (clock w))
                                   (fst (respond h selection_getFirstPosition w)))
                                (snd (respond h selection_getFirstPosition w)))))))
    as Hw.
  rewrite click_timestamp.
  do 5 eexists. split; [reflexivity |]. cbn [steps].
  split; [reflexivity |]. split; [exact Hj |]. split; [exact Hw |].
  rewrite Hj. unfold writes, yielded in *.
  cbn [map step_op List.filter is_write flat_map app]. now rewrite Hw.
Qed.
End TimestampClaims.

(** ** Starting the editor *)

Ltac keep_configs :=
  cbn -[Tutorial.start_config Tutorial.plugin_config Tutorial.button_config
       Tutorial.full_config].

Ltac settle :=
  unfold Tutorial.settles, Tutorial.found, calls, Tutorial.app_start,
    Tutorial.app_with_plugin, Tutorial.app_with_button, Tutorial.app_full,
    Tutorial.start_logging, Tutorial.catch_, Tutorial.then_, Tutorial.create,
    Tutorial.Timestamp_init_logging, Timestamp.init, Timestamp.init_with_button;
  keep_configs;
  match goal with
  | |- context [respond ?h ?op ?w] =>
      lazymatch op with
      | Tutorial.document_querySelector _ => destruct (respond h op w) as [element w1]
      end
  end;
  keep_configs;
  repeat match goal with
         | |- context [Tutorial.Reply ?a ?b ?c ?d (Tutorial.document_querySelector ?s)] =>
             change (Tutorial.Reply a b c d (Tutorial.document_querySelector s)) with b
         end;
  match goal with
  | |- context [respond ?h ?op ?w] => destruct (respond h op w) as [creation w2]
  end;
  keep_configs; intros ->; keep_configs;
  repeat match goal with
         | b : bool |- _ => destruct b; keep_configs
         | |- context [respond ?h ?op ?w] => destruct (respond h op w); keep_configs
         end;
  reflexivity.

Section TutorialClaims.
Import Tutorial.
Context (E : Engine) {Element Editor Reason : Type}.
Variable h : Host (Reply E Element Editor Reason).

(** C5.  In each listing of the guide, for every host: when the host
    rejects [ClassicEditor.create], all the listing does is look the element
    up, call [create] once and, once the promise is rejected, call
    [console.error] once, with the stack of the reason in the step-by-step
    listings and with the reason in the full code.  Nothing is called
    again.  In between stands only what the listing's own [Timestamp.init]
    did if the framework had got to initialising the plugins. *)
Theorem creation_failure_is_logged (w : world h) (reason : Reason) (initialised : bool) :
  (settles h "#editor" start_config w = failed reason initialised ->
   calls h (app_start E) w
   = [ document_querySelector "#editor";
       ClassicEditor_create (found h "#editor" w) start_config;
       console_error [logged_stack reason] ])
  /\ (settles h "#editor" plugin_config w = failed reason initialised ->
      calls h (app_with_plugin E) w
      = [ document_querySelector "#editor";
          ClassicEditor_create (found h "#editor" w) plugin_config ]
        ++ (if initialised
            then [ console_log [logged_text "Timestamp was initialized."] ]
            else [])
        ++ [ console_error [logged_stack reason] ])
  /\ (settles h "#editor" button_config w = failed reason initialised ->
      calls h (app_with_button E) w
      = [ document_querySelector "#editor";
          ClassicEditor_create (found h "#editor" w) button_config ]
        ++ (if initialised
            then [ plugin (Timestamp.ui_componentFactory_add "timestamp"
                             (Timestamp.button_only_factory E)) ]
            else [])
        ++ [ console_error [logged_stack reason] ])
  /\ (settles h "#snippet-timestamp-plugin" full_config w = failed reason initialised ->
      calls h (app_full E) w
      = [ document_querySelector "#snippet-timestamp-plugin";
          ClassicEditor_create (found h "#snippet-timestamp-plugin" w) full_config ]
        ++ (if initialised
            then [ plugin (Timestamp.ui_componentFactory_add "timestamp"
                             (Timestamp.factory E)) ]
            else [])
        ++ [ console_error [logged_reason reason] ]).
Proof.
  split; [| split; [| split]].
  - settle.
  - settle.
  - settle.
  - settle.
Qed.
End TutorialClaims.

Lemma creation_failure_in_reference_browser :
  let E := ReferenceEngine.flat in
  let early := ReferenceBrowser.browser (Tutorial.failed "boom" false) in
  let late := ReferenceBrowser.browser (Tutorial.failed "boom" true) in
  calls ReferenceBrowser.host (Tutorial.app_start E) late
  = [ Tutorial.document_querySelector "#editor";
      Tutorial.ClassicEditor_create "#editor" Tutorial.start_config;
      Tutorial.console_error [Tutorial.logged_stack "boom"] ]
  /\ calls ReferenceBrowser.host (Tutorial.app_with_plugin E) late
     = [ Tutorial.document_querySelector "#editor";
         Tutorial.ClassicEditor_create "#editor" Tutorial.plugin_config;
         Tutorial.console_log [Tutorial.logged_text "Timestamp was initialized."];
         Tutorial.console_error [Tutorial.logged_stack "boom"] ]
  /\ calls ReferenceBrowser.host (Tutorial.app_with_plugin E) early
     = [ Tutorial.document_querySelector "#editor";
         Tutorial.ClassicEditor_create "#editor" Tutorial.plugin_config;
         Tutorial.console_error [Tutorial.logged_stack "boom"] ]
  /\ calls ReferenceBrowser.host (Tutorial.app_with_button E) late
     = [ Tutorial.document_querySelector "#editor";
         Tutorial.ClassicEditor_create "#editor" Tutorial.button_config;
         Tutorial.plugin (Timestamp.ui_componentFactory_add "timestamp"
                            (Timestamp.button_only_factory E));
         Tutorial.console_error [Tutorial.logged_stack "boom"] ]
  /\ calls ReferenceBrowser.host (Tutorial.app_full E) late
     = [ Tutorial.document_querySelector "#snippet-timestamp-plugin";
         Tutorial.ClassicEditor_create "#snippet-timestamp-plugin" Tutorial.full_config;
         Tutorial.plugin (Timestamp.ui_componentFactory_add "timestamp"
                            (Timestamp.factory E));
         Tutorial.console_error [Tutorial.logged_reason "boom"] ].
Proof.
  intros E early late.
  pose proof (creation_failure_is_logged E ReferenceBrowser.host late "boom" true)
    as (Hstart & Hplugin & Hbutton & Hfull).
  pose proof (creation_failure_is_logged E ReferenceBrowser.host early "boom" false)
    as (_ & Hearly & _ & _).
  split; [exact (Hstart eq_refl) |].
  split; [exact (Hplugin eq_refl) |].
  split; [exact (Hearly eq_refl) |].
  split; [exact (Hbutton eq_refl) | exact (Hfull eq_refl)].
Defined.

(** * Further properties *)

(** ** FontFamilyEditing: the converters of [supportAllValues] *)

Section AnyValueConverters.
Import FontFamilyEditing.
Context {D : Type}.
Variable normalize : list ConfiguredOption -> list FontFamilyOption.
Variable build : string -> list FontFamilyOption -> D.

Lemma any_value_editor_rules (configured : option (list ConfiguredOption)) :
  ReferenceEditor.conversion (ReferenceEditor.any_value_editor normalize build configured)
  = [ ReferenceEditor.downcast_rule FONT_FAMILY anyValue_view;
      ReferenceEditor.upcast_rule anyValue_pattern FONT_FAMILY anyValue_value;
      ReferenceEditor.upcast_rule compatibility_pattern FONT_FAMILY compatibility_value ].
Proof.
  destruct (loaded_conversion normalize build
              (Some {| options := configured; supportAllValues := Some true |}))
    as (definition & Hrules).
  unfold ReferenceEditor.any_value_editor. exact Hrules.
Qed.

(** X1.  With [supportAllValues] set, what the upcast converters read off a
    view element is decided by its name: a [span] gives its [font-family]
    style, a [font] gives its [face] attribute, and an element that lacks
    the style or the attribute, or has another name, gives nothing.  No
    element is read by two converters. *)
Theorem upcast_reads_span_style_or_font_face (configured : option (list ConfiguredOption))
    (viewElement : ViewElement) :
  ReferenceEditor.upcast (ReferenceEditor.any_value_editor normalize build configured) viewElement
  = if String.eqb (element_name viewElement) "span"
    then match getStyle viewElement "font-family" with
         | Some family => [("fontFamily", Some family)]
         | None => []
         end
    else if String.eqb (element_name viewElement) "font"
    then match getAttribute viewElement "face" with
         | Some face => [("fontFamily", Some face)]
         | None => []
         end
    else [].
Proof.
  unfold ReferenceEditor.upcast. rewrite any_value_editor_rules.
  cbn [flat_map app]. unfold pattern_matches, key_matches, anyValue_pattern,
    compatibility_pattern, anyValue_value, compatibility_value.
  cbn [pattern_name pattern_styles pattern_attributes forallb regexp_test andb].
  rewrite (String.eqb_sym "span"), (String.eqb_sym "font").
  destruct (String.eqb_spec (element_name viewElement) "span") as [Hspan | Hspan].
  - rewrite Hspan. cbn.
    destruct (getStyle viewElement "font-family"); reflexivity.
  - destruct (String.eqb_spec (element_name viewElement) "font") as [Hfont | Hfont]; cbn.
    + destruct (getAttribute viewElement "face"); reflexivity.
    + reflexivity.
Qed.

(** X2.  With [supportAllValues] set, the downcast converter answers for the
    [fontFamily] attribute only: for that key it hands the downcast writer
    one [span] of priority 7 whose [style] is ['font-family:'] followed by
    the attribute value, and for any other key nothing. *)
Theorem downcast_only_fontFamily (configured : option (list ConfiguredOption))
    (key attributeValue : string) :
  ReferenceEditor.downcast (ReferenceEditor.any_value_editor normalize build configured)
    key attributeValue
  = if String.eqb key "fontFamily"
    then [ createAttributeElement "span" [("style", "font-family:" +:+ attributeValue)] 7 ]
    else [].
Proof.
  unfold ReferenceEditor.downcast. rewrite any_value_editor_rules.
  cbn [flat_map app]. rewrite (String.eqb_sym FONT_FAMILY).
  unfold FONT_FAMILY. destruct (String.eqb key "fontFamily"); reflexivity.
Qed.
End AnyValueConverters.

(** ** FontFamilyEditing: what loading the plugin leaves alone *)

Section LoadingFrame.
Import FontFamilyEditing.
Context {D : Type}.
Variable normalize : list ConfiguredOption -> list FontFamilyOption.
Variable build : string -> list FontFamilyOption -> D.

Lemma define_elsewhere (name other : string) (defaults : FontFamilyConfig)
    (c : gmap string FontFamilyConfig) :
  other <> name -> ReferenceEditor.define name defaults c !! other = c !! other.
Proof.
  intros Hne. unfold ReferenceEditor.define.
  destruct (c !! name); now rewrite lookup_insert_ne.
Qed.

(** X3.  Loading the plugin into an editor that already holds registrations
    of others adds to them and overwrites none but its own: the schema
    gains the one pair ([$text], [fontFamily]), the conversion rules of the
    editor stay in front of the one or three new ones, and the attribute
    properties, the commands and the configuration are untouched under
    every name other than [fontFamily]. *)
Theorem loading_keeps_other_registrations (editor : ReferenceEditor.Editor D) :
  let loaded := after (play (ReferenceEditor.host normalize build) load editor) in
  ReferenceEditor.allowed_attributes loaded
  = ReferenceEditor.allowed_attributes editor ++ [("$text", "fontFamily")]
  /\ (exists rules,
        ReferenceEditor.conversion loaded = ReferenceEditor.conversion editor ++ rules
        /\ (length rules = 1 \/ length rules = 3))
  /\ ReferenceEditor.attribute_properties loaded !! "fontFamily"
     = Some {| isFormatting := true; copyOnEnter := true |}
  /\ ReferenceEditor.commands loaded !! "fontFamily" = Some FontFamilyCommand
  /\ (forall name, name <> "fontFamily" ->
        ReferenceEditor.attribute_properties loaded !! name
        = ReferenceEditor.attribute_properties editor !! name
        /\ ReferenceEditor.commands loaded !! name = ReferenceEditor.commands editor !! name
        /\ ReferenceEditor.config loaded !! name = ReferenceEditor.config editor !! name).
Proof.
  intros loaded. subst loaded.
  cbn -[ReferenceEditor.define ReferenceEditor.get_supportAllValues
        ReferenceEditor.get_options without_default].
  destruct (truthy _);
    cbn -[ReferenceEditor.define ReferenceEditor.get_supportAllValues
          ReferenceEditor.get_options without_default].
  all: split; [reflexivity |].
  all: split; [eexists; split; [rewrite <- ?app_assoc; reflexivity | cbn; auto] |].
  all: unfold FONT_FAMILY.
  all: split; [apply lookup_insert_eq |].
  all: split; [apply lookup_insert_eq |].
  all: intros name Hne; rewrite !lookup_insert_ne by congruence.
  all: split; [reflexivity |]; split; [reflexivity |].
  all: now apply define_elsewhere.
Qed.

(** X4.  When every option [normalizeOptions] returns carries a non-empty
    model (a configuration without a ['default'] entry), [init] hands the
    whole normalised list to [buildDefinition], in order. *)
Theorem options_with_models_all_reach_builder (h : Host (Reply D)) (w : world h)
    (norm : list FontFamilyOption) :
  map snd (normalized (journal (play h init w))) = [norm] ->
  forallb (fun item => truthy (model item)) norm = true ->
  handed_to_builder (journal (play h init w)) = [norm].
Proof.
  intros Hnorm Hall.
  destruct (init_journal h w) as (configured & norm' & definition & flag & _ & _ & Hn & Hb & _).
  rewrite Hn in Hnorm. injection Hnorm as ->.
  unfold handed_to_builder. rewrite Hb. cbn [map fst snd]. f_equal.
  unfold without_default.
  clear -Hall. induction norm as [| item norm IH]; simpl in *.
  - reflexivity.
  - apply andb_prop in Hall as [Hitem Hrest]. rewrite Hitem. f_equal. now apply IH.
Qed.
End LoadingFrame.

Lemma options_with_models_all_reach_builder_witness :
  let normalize :=
    map (fun configured =>
           match configured with
           | option_string s => {| title := s; model := Some s; view := None; upcastAlso := None |}
           | option_object o => o
           end) in
  let editor :=
    ReferenceEditor.new_editor
      (Some {| options := Some [option_string "Arial"; option_string "Georgia"];
               supportAllValues := None |}) in
  FontFamilyEditing.handed_to_builder
    (journal (play (ReferenceEditor.host normalize pair) FontFamilyEditing.init
                (after (play (ReferenceEditor.host normalize pair)
                          FontFamilyEditing.constructor editor))))
  = [ [ {| title := "Arial"; model := Some "Arial"; view := None; upcastAlso := None |};
        {| title := "Georgia"; model := Some "Georgia"; view := None; upcastAlso := None |} ] ].
Proof.
  intros normalize editor.
  apply (options_with_models_all_reach_builder
           (ReferenceEditor.host normalize pair)
           (after (play (ReferenceEditor.host normalize pair)
                     FontFamilyEditing.constructor editor))).
  - reflexivity.
  - reflexivity.
Defined.

(** ** The guide: when the editor is created *)

Section TutorialSuccess.
Import Tutorial.
Context (E : Engine) {Element Editor Reason : Type}.
Variable h : Host (Reply E Element Editor Reason).

(** X5.  In each listing of the guide, for every host: when the host hands
    out an editor, the listing looks the element up, calls [create] once,
    its own [Timestamp.init] has run (logging in "Creating a plugin",
    registering the button in the two later listings), and the one call
    made afterwards is that of the success handler: the step-by-step
    listings log the editor, the full code stores it in [window.editor].
    [console.error] is not called. *)
Theorem creation_success_skips_error_handler (w : world h) (editor : Editor) :
  (settles h "#editor" start_config w = created editor ->
   calls h (app_start E) w
   = [ document_querySelector "#editor";
       ClassicEditor_create (found h "#editor" w) start_config;
       console_log [logged_text "Editor was initialized"; logged_editor editor] ])
  /\ (settles h "#editor" plugin_config w = created editor ->
      calls h (app_with_plugin E) w
      = [ document_querySelector "#editor";
          ClassicEditor_create (found h "#editor" w) plugin_config;
          console_log [logged_text "Timestamp was initialized."];
          console_log [logged_text "Editor was initialized"; logged_editor editor] ])
  /\ (settles h "#editor" button_config w = created editor ->
      calls h (app_with_button E) w
      = [ document_querySelector "#editor";
          ClassicEditor_create (found h "#editor" w) button_config;
          plugin (Timestamp.ui_componentFactory_add "timestamp"
                    (Timestamp.button_only_factory E));
          console_log [logged_text "Editor was initialized"; logged_editor editor] ])
  /\ (settles h "#snippet-timestamp-plugin" full_config w = created editor ->
      calls h (app_full E) w
      = [ document_querySelector "#snippet-timestamp-plugin";
          ClassicEditor_create (found h "#snippet-timestamp-plugin" w) full_config;
          plugin (Timestamp.ui_componentFactory_add "timestamp" (Timestamp.factory E));
          window_editor_assign editor ]).
Proof.
  split; [| split; [| split]]; settle.
Qed.
End TutorialSuccess.

Lemma creation_success_in_reference_browser :
  let E := ReferenceEngine.flat in
  let b := ReferenceBrowser.browser (Tutorial.created 7) in
  calls ReferenceBrowser.host (Tutorial.app_start E) b
  = [ Tutorial.document_querySelector "#editor";
      Tutorial.ClassicEditor_create "#editor" Tutorial.start_config;
      Tutorial.console_log
        [Tutorial.logged_text "Editor was initialized"; Tutorial.logged_editor 7] ]
  /\ calls ReferenceBrowser.host (Tutorial.app_with_plugin E) b
     = [ Tutorial.document_querySelector "#editor";
         Tutorial.ClassicEditor_create "#editor" Tutorial.plugin_config;
         Tutorial.console_log [Tutorial.logged_text "Timestamp was initialized."];
         Tutorial.console_log
           [Tutorial.logged_text "Editor was initialized"; Tutorial.logged_editor 7] ]
  /\ calls ReferenceBrowser.host (Tutorial.app_with_button E) b
     = [ Tutorial.document_querySelector "#editor";
         Tutorial.ClassicEditor_create "#editor" Tutorial.button_config;
         Tutorial.plugin (Timestamp.ui_componentFactory_add "timestamp"
                            (Timestamp.button_only_factory E));
         Tutorial.console_log
           [Tutorial.logged_text "Editor was initialized"; Tutorial.logged_editor 7] ]
  /\ calls ReferenceBrowser.host (Tutorial.app_full E) b
     = [ Tutorial.document_querySelector "#snippet-timestamp-plugin";
         Tutorial.ClassicEditor_create "#snippet-timestamp-plugin" Tutorial.full_config;
         Tutorial.plugin (Timestamp.ui_componentFactory_add "timestamp"
                            (Timestamp.factory E));
         Tutorial.window_editor_assign 7 ]
  /\ ReferenceBrowser.window_editor
       (after (play ReferenceBrowser.host (Tutorial.app_full E) b))
     = Some 7.
Proof.
  intros E b.
  pose proof (creation_success_skips_error_handler E ReferenceBrowser.host b 7)
    as (Hstart & Hplugin & Hbutton & Hfull).
  split; [exact (Hstart eq_refl) |].
  split; [exact (Hplugin eq_refl) |].
  split; [exact (Hbutton eq_refl) |].
  split; [exact (Hfull eq_refl) | reflexivity].
Defined.

(** ** Timestamp: clicks on the reference document *)

Section RepeatedClicks.
Import Timestamp ReferenceEngine.

(** The change block on a document in any state, whatever iterators were
    handed out before. *)
Lemma change_on_document (d : Document) (now : string) (fuel : nat) :
  selection_in_bounds d -> 2 <= fuel ->
  let block := play host (change_callback (E := flat) now fuel) d in
  let from := fst (selection d) in
  let to := snd (selection d) in
  let stamp := list_ascii_of_string now in
  result block = completed
  /\ content (after block) = take from (content d) ++ stamp ++ drop to (content d)
  /\ selection (after block) = (from + length stamp, from + length stamp)
  /\ iterators (after block) = iterators d ++ [1]
  /\ time (after block) = time d.
Proof.
  intros [Hft Hto] Hfuel.
  destruct d as [text [from to] its clk]. cbn [selection content iterators time fst snd] in *.
  destruct fuel as [| [| fuel]]; [lia | lia |].
  cbn -[take drop after_insertion after_removal lookup insert].
  rewrite selection_follows_insertion by exact Hft.
  rewrite list_lookup_middle by reflexivity.
  cbn -[take drop after_insertion after_removal lookup insert].
  rewrite selection_collapses_on_removal by lia.
  rewrite insertion_then_removal by assumption.
  replace (<[length its := 1]> (its ++ [0])) with (its ++ [1])
    by (rewrite insert_app_r_alt by lia; now rewrite Nat.sub_diag).
  rewrite list_lookup_middle by reflexivity.
  destruct fuel; cbn; auto.
Qed.

Lemma insertion_at_the_end_of (head stamp tail more : list ascii) :
  take (length head + length stamp) (head ++ stamp ++ tail)
    ++ more ++ drop (length head + length stamp) (head ++ stamp ++ tail)
  = head ++ stamp ++ more ++ tail.
Proof.
  rewrite (app_assoc head stamp tail), <- length_app.
  rewrite take_app_length, drop_app_length.
  now rewrite <- app_assoc.
Qed.

(** X6.  A click on the reference document in any state with the selection
    inside the text, not only a freshly opened one, replaces the selected
    fragment by the timestamp, and leaves the selection as a caret right
    after the timestamp and still inside the text; the text grows by the
    length of the timestamp less the length of the fragment. *)
Theorem click_keeps_selection_in_bounds (d : Document) (locale : string) (fuel : nat) :
  selection_in_bounds d -> 2 <= fuel ->
  exists fired,
    click (loaded flat) "timestamp" locale host clock fuel d = Some fired
    /\ outcomes fired = [completed]
    /\ content (world_after fired)
       = take (fst (selection d)) (content d)
           ++ list_ascii_of_string (time d)
           ++ drop (snd (selection d)) (content d)
    /\ selection_in_bounds (world_after fired)
    /\ fst (selection (world_after fired)) = snd (selection (world_after fired))
    /\ fst (selection (world_after fired))
       = fst (selection d) + length (list_ascii_of_string (time d))
    /\ length (content (world_after fired)) + (snd (selection d) - fst (selection d))
       = length (content d) + length (list_ascii_of_string (time d)).
Proof.
  intros Hin Hfuel.
  pose proof (change_on_document d (time d) fuel Hin Hfuel)
    as (Hres & Hcontent & Hsel & _ & _).
  destruct Hin as [Hft Hto].
  rewrite click_timestamp. eexists. split; [reflexivity |].
  cbn [outcomes world_after]. unfold clock.
  rewrite Hres, Hcontent, Hsel. cbn [fst snd].
  assert (Hlen : length (take (fst (selection d)) (content d)
                         ++ list_ascii_of_string (time d)
                         ++ drop (snd (selection d)) (content d))
                 + (snd (selection d) - fst (selection d))
                 = length (content d) + length (list_ascii_of_string (time d))).
  { rewrite !length_app, length_take, length_drop. lia. }
  unfold selection_in_bounds. rewrite Hsel, ?Hcontent. cbn [fst snd].
  split; [reflexivity |]. split; [reflexivity |].
  split; [split; [lia |] |].
  - revert Hlen. generalize (length (take (fst (selection d)) (content d)
                         ++ list_ascii_of_string (time d)
                         ++ drop (snd (selection d)) (content d))). intros; lia.
  - split; [reflexivity |]. split; [reflexivity | exact Hlen].
Qed.

Lemma click_keeps_selection_in_bounds_witness :
  let d := open_document "hello world" 2 5 "NOW" in
  selection_in_bounds d
  /\ exists fired,
       click (loaded flat) "timestamp" "en" host clock 2 d = Some fired
       /\ string_of_list_ascii (content (world_after fired)) = "heNOW world"
       /\ fst (selection (world_after fired)) = 5
       /\ selection_in_bounds (world_after fired).
Proof.
  intros d.
  assert (Hin : selection_in_bounds d) by (unfold selection_in_bounds; simpl; lia).
  split; [exact Hin |].
  destruct (click_keeps_selection_in_bounds d "en" 2 Hin ltac:(lia))
    as (fired & Hclick & _ & Hc & Hb & _ & Hf & _).
  exists fired. split; [exact Hclick |].
  rewrite Hc, Hf. split; [reflexivity |]. split; [reflexivity | exact Hb].
Defined.

(** X7.  Two clicks in a row on the reference document put two timestamps
    where the selected fragment was, the second right after the first; the
    rest of the text is as it was. *)
Theorem two_clicks_put_two_timestamps (d : Document) (locale : string) (fuel : nat) :
  selection_in_bounds d -> 2 <= fuel ->
  exists first second,
    click (loaded flat) "timestamp" locale host clock fuel d = Some first
    /\ click (loaded flat) "timestamp" locale host clock fuel (world_after first) = Some second
    /\ outcomes second = [completed]
    /\ content (world_after second)
       = take (fst (selection d)) (content d)
           ++ list_ascii_of_string (time d)
           ++ list_ascii_of_string (time d)
           ++ drop (snd (selection d)) (content d).
Proof.
  intros Hin Hfuel.
  pose proof (change_on_document d (time d) fuel Hin Hfuel)
    as (Hres & Hcontent & Hsel & _ & Htime).
  set (once := after (play host (change_callback (E := flat) (time d) fuel) d)) in *.
  assert (Hin' : selection_in_bounds once).
  { destruct Hin as [Hft Hto]. unfold selection_in_bounds.
    rewrite Hsel, Hcontent. cbn [fst snd].
    rewrite !length_app, length_take, length_drop. lia. }
  pose proof (change_on_document once (time once) fuel Hin' Hfuel)
    as (Hres' & Hcontent' & _).
  rewrite click_timestamp. do 2 eexists.
  split; [reflexivity |]. cbn [world_after]. rewrite click_timestamp.
  split; [reflexivity |]. cbn [world_after outcomes].
  change (clock d) with (time d). fold once. change (clock once) with (time once).
  rewrite Hres'. split; [reflexivity |].
  rewrite Hcontent', Hsel, Htime, Hcontent. cbn [fst snd].
  destruct Hin as [Hft Hto].
  pose proof (insertion_at_the_end_of (take (fst (selection d)) (content d))
                (list_ascii_of_string (time d)) (drop (snd (selection d)) (content d))
                (list_ascii_of_string (time d))) as Hlists.
  rewrite length_take in Hlists.
  replace (fst (selection d) `min` length (content d)) with (fst (selection d))
    in Hlists by lia.
  exact Hlists.
Qed.

Lemma two_clicks_on_hello_world :
  let d := open_document "hello world" 2 5 "NOW" in
  exists first second,
    click (loaded flat) "timestamp" "en" host clock 2 d = Some first
    /\ click (loaded flat) "timestamp" "en" host clock 2 (world_after first) = Some second
    /\ string_of_list_ascii (content (world_after second)) = "heNOWNOW world".
Proof.
  intros d.
  destruct (two_clicks_put_two_timestamps d "en" 2) as (first & second & H1 & H2 & _ & Hc).
  - unfold selection_in_bounds. simpl. lia.
  - lia.
  - exists first, second. split; [exact H1 |]. split; [exact H2 |].
    rewrite Hc. reflexivity.
Defined.
End RepeatedClicks.

(** ** Timestamp: a selection of two ranges *)

Section TwoRanges.
Import Timestamp LiveEngine.

(** For one range the engine with an array of ranges does what the
    reference engine does. *)
Example one_range_in_the_live_engine :
  option_map
    (fun fired =>
       (outcomes fired, string_of_list_ascii (content (world_after fired)),
        ranges (world_after fired)))
    (click (loaded ReferenceEngine.flat) "timestamp" "en" host clock 2
       (open_document "hello world" [(2, 5)] "NOW"))
  = Some ([completed], "heNOW world", [(5, 5)]).
Proof. reflexivity. Qed.

(** C2, the code at the failing input.  On "hello world" with "he" and "wo"
    selected, the click inserts the timestamp at the first position and
    removes "he"; the loop then ends, because the array of ranges it walks
    has lost the removed range and the second range has moved to the index
    the loop has passed.  "wo" is still in the document and still
    selected. *)
Lemma second_range_is_not_removed :
  option_map
    (fun fired =>
       (outcomes fired,
        flat_map
          (fun s => match s with
                    | at_model_change inside _ => writes inside
                    | at_new_Date _ => []
                    end)
          (steps fired),
        string_of_list_ascii (content (world_after fired)),
        ranges (world_after fired),
        map (text_of (world_after fired)) (ranges (world_after fired))))
    (click (loaded ReferenceEngine.flat) "timestamp" "en" host clock 5
       (open_document "hello world" [(0, 2); (6, 8)] "NOW"))
  = Some ([completed],
          [ writer_insertText (E := ReferenceEngine.flat) "NOW" 0;
            writer_remove (E := ReferenceEngine.flat) (3, 5) ],
          "NOWllo world",
          [(7, 9)],
          ["wo"]).
Proof. reflexivity. Qed.

(** C9, the code at the failing input.  On "one two three" with "one" and
    "three" selected, the change block reads the first position, inserts the
    timestamp, asks for the ranges, is handed one range, removes it and is
    handed no other: the removal does not delete the ranges of the
    selection, "three" stays.  The timestamp and the text outside the two
    ranges are as the claim says. *)
Lemma change_block_removes_one_range_of_two :
  option_map
    (fun fired =>
       (steps fired,
        string_of_list_ascii (content (world_after fired)),
        map (text_of (world_after fired)) (ranges (world_after fired))))
    (click (loaded ReferenceEngine.flat) "timestamp" "en" host clock 5
       (open_document "one two three" [(0, 3); (8, 13)] "NOW"))
  = Some ([ at_new_Date (E := ReferenceEngine.flat) "NOW";
            at_model_change
              [ step (Reply := ModelReply ReferenceEngine.flat)
                  (selection_getFirstPosition (E := ReferenceEngine.flat)) 0;
                step (Reply := ModelReply ReferenceEngine.flat)
                  (writer_insertText (E := ReferenceEngine.flat) "NOW" 0) tt;
                step (Reply := ModelReply ReferenceEngine.flat)
                  (selection_getRanges (E := ReferenceEngine.flat)) 0;
                step (Reply := ModelReply ReferenceEngine.flat)
                  (iterator_next (E := ReferenceEngine.flat) 0) (Some (3, 6));
                step (Reply := ModelReply ReferenceEngine.flat)
                  (writer_remove (E := ReferenceEngine.flat) (3, 6)) tt;
                step (Reply := ModelReply ReferenceEngine.flat)
                  (iterator_next (E := ReferenceEngine.flat) 0) None ]
              completed ],
          "NOW two three",
          ["three"]).
Proof. reflexivity. Qed.
End TwoRanges.
